(** * em.py: deduplication of the Physics C E&M topic lookup

    A shallow embedding of [src/em.py].  The script reads every
    [*TopicLookup.json] file of a directory, collects the
    [(unitCd, topicCd, skillCd)] triples of all files but the Physics one,
    removes from the Physics file the skills whose triple was collected,
    drops the topics and units left empty and writes the result.

    The values are the ones [json.load] returns, so every Python operation
    the script applies to them ([.get], [for], [len], truth value, hashing
    into a [set]) is modelled on every JSON value, with the exception it
    raises when the value has the wrong type. *)

From Stdlib Require Import SpecFloat.
From stdpp Require Import gmap strings list sorting.

Open Scope string_scope.
Open Scope list_scope.

Set Warnings "-register-all,-clear-no-such-hyp".

(** ** Values returned by [json.load] *)

(** A Python [str] is a Rocq [string], one [ascii] per character.  A Python
    [dict] keeps its keys in insertion order: an association list.  A JSON
    number without fraction or exponent is a Python [int], the others are
    [float]s (binary64, with the constants [NaN], [Infinity], [-Infinity]
    that [json.load] accepts). *)
Inductive json : Type :=
| JNull
| JBool (b : bool)
| JInt (z : Z)
| JFloat (f : spec_float)
| JStr (s : string)
| JArr (items : list json)
| JObj (fields : list (string * json)).

(** ** Exceptions and the error monad *)

Inductive exn : Type :=
| LoadError        (* whatever [load_json] raises: OSError, JSONDecodeError *)
| TypeError
| AttributeError.

Inductive result (A : Type) : Type :=
| Ok (a : A)
| Raise (e : exn).
Arguments Ok {A} a.
Arguments Raise {A} e.

#[global] Instance result_ret : MRet result := λ A a, Ok a.
#[global] Instance result_bind : MBind result := λ A B f m,
  match m with Ok a => f a | Raise e => Raise e end.

(** A [for] loop whose body updates the loop state and may raise. *)
Fixpoint foldM {S A : Type} (body : S → A → result S) (s : S) (l : list A)
  : result S :=
  match l with
  | [] => Ok s
  | x :: l' => s' ← body s x; foldM body s' l'
  end.

(** ** Python operations on JSON values *)

(** The value [d.get(k)] looks up in a dict, [None] when the key is absent. *)
Fixpoint assoc_get (kvs : list (string * json)) (k : string) : option json :=
  match kvs with
  | [] => None
  | (k', v) :: kvs' => if String.eqb k' k then Some v else assoc_get kvs' k
  end.

(** [d[k] = v]: an existing key keeps its position, a new key goes last. *)
Fixpoint assoc_set (kvs : list (string * json)) (k : string) (v : json)
  : list (string * json) :=
  match kvs with
  | [] => [(k, v)]
  | (k', v') :: kvs' =>
      if String.eqb k' k then (k', v) :: kvs'
      else (k', v') :: assoc_set kvs' k v
  end.

(** [x.get(k, dflt)]: only a dict has the method. *)
Definition py_get (x : json) (k : string) (dflt : json) : result json :=
  match x with
  | JObj kvs => Ok (default dflt (assoc_get kvs k))
  | _ => Raise AttributeError
  end.

(** [dict(x)] for an [x] that is a dict: a copy of its items. *)
Definition py_dict (x : json) : result (list (string * json)) :=
  match x with
  | JObj kvs => Ok kvs
  | _ => Raise TypeError
  end.

Fixpoint chars (s : string) : list json :=
  match s with
  | EmptyString => []
  | String c s' => JStr (String c EmptyString) :: chars s'
  end.

(** The elements a [for] loop (or a generator expression) goes through:
    the items of a list, the characters of a str, the keys of a dict. *)
Definition py_iter (x : json) : result (list json) :=
  match x with
  | JArr l => Ok l
  | JStr s => Ok (chars s)
  | JObj kvs => Ok (JStr <$> kvs.*1)
  | _ => Raise TypeError
  end.

(** [len(x)]. *)
Definition py_len (x : json) : result nat :=
  match x with
  | JArr l => Ok (length l)
  | JStr s => Ok (String.length s)
  | JObj kvs => Ok (length kvs)
  | _ => Raise TypeError
  end.

(** Truth value, as tested by [if] and [and]. *)
Definition truthy (x : json) : bool :=
  match x with
  | JNull => false
  | JBool b => b
  | JInt z => negb (z =? 0)%Z
  | JFloat f => match f with S754_zero _ => false | _ => true end
  | JStr s => negb (String.eqb s "")
  | JArr l => match l with [] => false | _ => true end
  | JObj kvs => match kvs with [] => false | _ => true end
  end.

(** ** Hashing: the keys of [seen_signatures] *)

(** [sig in seen_signatures] hashes the tuple, which hashes its three
    components, and then compares by identity or [==].  [None], [bool],
    [int], [float] and [str] are hashable; a [list] or a [dict] raises
    [TypeError].  [bool], [int] and [float] compare by numeric value
    ([True == 1 == 1.0], [0 == -0.0 == False]), so the key of a number is
    its value: zero, or a signed odd mantissa times a power of two, or an
    infinity.  Every [NaN] that [json.load] returns is the one object
    [json.decoder.NaN], found equal to itself by identity. *)
Inductive number : Type :=
| Zero
| Dyadic (neg : bool) (m : positive) (e : Z)
| Infinity (neg : bool)
| NaN.

Inductive key : Type :=
| KNone
| KStr (s : string)
| KNum (n : number).

(** [m * 2^e] with every factor two moved from [m] to the exponent. *)
Fixpoint odd_part (m : positive) (e : Z) : positive * Z :=
  match m with
  | xO p => odd_part p (e + 1)
  | _ => (m, e)
  end.

Definition number_of_int (z : Z) : number :=
  match z with
  | Z0 => Zero
  | Zpos p => let '(m, e) := odd_part p 0 in Dyadic false m e
  | Zneg p => let '(m, e) := odd_part p 0 in Dyadic true m e
  end.

Definition number_of_float (f : spec_float) : number :=
  match f with
  | S754_zero _ => Zero
  | S754_infinity s => Infinity s
  | S754_nan => NaN
  | S754_finite s m e => let '(m', e') := odd_part m e in Dyadic s m' e'
  end.

Definition py_hash (x : json) : result key :=
  match x with
  | JNull => Ok KNone
  | JBool b => Ok (KNum (number_of_int (if b then 1 else 0)))
  | JInt z => Ok (KNum (number_of_int z))
  | JFloat f => Ok (KNum (number_of_float f))
  | JStr s => Ok (KStr s)
  | JArr _ | JObj _ => Raise TypeError
  end.

#[global] Instance number_eq_dec : EqDecision number.
Proof. solve_decision. Defined.

#[global] Instance number_countable : Countable number.
Proof.
  refine (inj_countable'
    (λ n, match n with
          | Zero => inl ()
          | Dyadic s m e => inr (inl (s, m, e))
          | Infinity s => inr (inr (inl s))
          | NaN => inr (inr (inr ()))
          end)
    (λ x, match x with
          | inl _ => Zero
          | inr (inl (s, m, e)) => Dyadic s m e
          | inr (inr (inl s)) => Infinity s
          | inr (inr (inr _)) => NaN
          end) _).
  by intros [].
Defined.

#[global] Instance key_eq_dec : EqDecision key.
Proof. solve_decision. Defined.

#[global] Instance key_countable : Countable key.
Proof.
  refine (inj_countable'
    (λ k, match k with
          | KNone => inl ()
          | KStr s => inr (inl s)
          | KNum n => inr (inr n)
          end)
    (λ x, match x with
          | inl _ => KNone
          | inr (inl s) => KStr s
          | inr (inr n) => KNum n
          end) _).
  by intros [].
Defined.

(** The tuple [(u_cd, t_cd, s_cd)] as a set element. *)
Definition signature : Type := key * key * key.

Definition py_hash_sig (u_cd t_cd s_cd : json) : result signature :=
  ku ← py_hash u_cd;
  kt ← py_hash t_cd;
  ks ← py_hash s_cd;
  Ok (ku, kt, ks).

(** ** The directory *)

(** What [load_json] gets from a directory entry: the parsed document, or an
    exception (unreadable entry, malformed JSON). *)
Inductive file : Type :=
| Parsed (data : json)
| Malformed.

Definition PHYSICS_FILENAME : string :=
  "Physics_C_Electricity_and_Magnetism_TopicLookup.json".
Definition OUTPUT_FILENAME : string :=
  "NEW_Physics_C_Electricity_and_Magnetism_TopicLookup.json".

(** A directory is the map from the names of its entries to what they hold
    (the empty map when [TOPIC_DIR] is missing).  [load_json] (lines 25-27)
    takes the name of the entry in place of its path. *)
Definition load_json (dir : gmap string file) (name : string) : result json :=
  match dir !! name with
  | Some (Parsed data) => Ok data
  | _ => Raise LoadError
  end.

Definition endswith (s suffix : string) : bool :=
  String.prefix (String.rev suffix) (String.rev s).

Definition startswith (s pre : string) : bool := String.prefix pre s.

Definition path_le (a b : string) : Prop := String.leb a b = true.

#[global] Instance path_le_dec a b : Decision (path_le a b).
Proof. unfold path_le. apply _. Defined.

(** Line 37: [sorted(TOPIC_DIR.glob("*TopicLookup.json"))], as names.  The
    pattern matches the names that end with [TopicLookup.json]; paths of one
    directory are ordered as their names are, character by character. *)
Definition all_files (dir : gmap string file) : list string :=
  merge_sort path_le
    (filter (λ name, endswith name "TopicLookup.json") (elements (dom dir))).

(** Line 45. *)
Definition other_files (dir : gmap string file) : list string :=
  filter (λ name, name ≠ PHYSICS_FILENAME ∧ ¬ startswith name "NEW_")
    (all_files dir).

(** ** Step 2: signatures of the other subjects *)

(** The two variables of lines 51-52, and the loops of lines 61-72 from the
    innermost to the outermost. *)

Record collected : Type := Collected {
  seen_signatures : gset signature;
  other_entry_count : nat
}.

Definition collect_skill (u_cd t_cd : json) (st : collected) (skill : json)
  : result collected :=
  s_cd ← py_get skill "skillCd" JNull;
  if truthy u_cd && truthy t_cd && truthy s_cd then
    sg ← py_hash_sig u_cd t_cd s_cd;
    Ok (Collected ({[sg]} ∪ seen_signatures st) (S (other_entry_count st)))
  else Ok st.

Definition collect_topic (u_cd : json) (st : collected) (topic : json)
  : result collected :=
  t_cd ← py_get topic "topicCd" JNull;
  skills ← py_get topic "skills" (JArr []);
  skills ← py_iter skills;
  foldM (collect_skill u_cd t_cd) st skills.

Definition collect_unit (st : collected) (unit : json) : result collected :=
  u_cd ← py_get unit "unitCd" JNull;
  topics ← py_get unit "topics" (JArr []);
  topics ← py_iter topics;
  foldM (collect_topic u_cd) st topics.

Definition collect_data (st : collected) (data : json) : result collected :=
  lookupData ← py_get data "lookupData" (JObj []);
  units ← py_get lookupData "units" (JArr []);
  units ← py_iter units;
  foldM collect_unit st units.

(** Console lines, each with the values it prints. *)
Inductive line : Type :=
| ErrorPhysicsNotFound
| ErrorNoFiles
| InfoFound (n : nat)
| InfoUsing (n : nat)
| InfoName (name : string)
| WarnSkipping (name : string)
| InfoCollected (entries unique : nat)
| SummaryUnits (before after : nat)
| SummaryTopics (before after : nat)
| SummarySkills (before after : nat)
| SummaryRemoved (n : nat)
| SummaryOutput (name : string).

(** The loop over [other_files]: the lines it prints, and the state it
    reaches or the exception that leaves it.  Only [load_json] is inside
    [try]. *)
Fixpoint collect_files (dir : gmap string file) (paths : list string)
    (st : collected) : list line * result collected :=
  match paths with
  | [] => ([], Ok st)
  | path :: paths' =>
      match load_json dir path with
      | Raise _ =>
          let '(out, r) := collect_files dir paths' st in
          (WarnSkipping path :: out, r)
      | Ok data =>
          match collect_data st data with
          | Raise e => ([], Raise e)
          | Ok st' => collect_files dir paths' st'
          end
      end
  end.

Definition aggregate (dir : gmap string file) : list line * result collected :=
  collect_files dir (other_files dir) (Collected ∅ 0).

(** ** Step 4: filtering the Physics entries *)

(** The counters of lines 82-86 that the loops update, and the loops of
    lines 89-120 from the innermost to the outermost; each loop carries the
    list it appends to. *)

Record tally : Type := Tally {
  original_topics_count : nat;
  original_skills_count : nat;
  removed_skills : nat
}.

Definition filter_skill (seen : gset signature) (u_cd t_cd : json)
    (st : list json * tally) (skill : json) : result (list json * tally) :=
  let '(new_skills, n) := st in
  s_cd ← py_get skill "skillCd" JNull;
  sg ← py_hash_sig u_cd t_cd s_cd;
  if decide (sg ∈ seen) then
    Ok (new_skills,
        Tally (original_topics_count n) (original_skills_count n)
              (S (removed_skills n)))
  else Ok (new_skills ++ [skill], n).

Definition filter_topic (seen : gset signature) (u_cd : json)
    (st : list json * tally) (topic : json) : result (list json * tally) :=
  let '(new_topics, n) := st in
  t_cd ← py_get topic "topicCd" JNull;
  skills ← py_get topic "skills" (JArr []);
  len ← py_len skills;
  let n := Tally (original_topics_count n) (original_skills_count n + len)
                 (removed_skills n) in
  skills ← py_iter skills;
  '(new_skills, n) ← foldM (filter_skill seen u_cd t_cd) ([], n) skills;
  if truthy (JArr new_skills) then
    topic_copy ← py_dict topic;
    Ok (new_topics ++ [JObj (assoc_set topic_copy "skills" (JArr new_skills))],
        n)
  else Ok (new_topics, n).

Definition filter_unit (seen : gset signature)
    (st : list json * tally) (unit : json) : result (list json * tally) :=
  let '(new_units, n) := st in
  u_cd ← py_get unit "unitCd" JNull;
  topics ← py_get unit "topics" (JArr []);
  len ← py_len topics;
  let n := Tally (original_topics_count n + len) (original_skills_count n)
                 (removed_skills n) in
  topics ← py_iter topics;
  '(new_topics, n) ← foldM (filter_topic seen u_cd) ([], n) topics;
  if truthy (JArr new_topics) then
    unit_copy ← py_dict unit;
    Ok (new_units ++ [JObj (assoc_set unit_copy "topics" (JArr new_topics))],
        n)
  else Ok (new_units, n).

(** Steps 3 and 4 (lines 78-120): the number of Physics units, the filtered
    units and the counts. *)
Definition filter_physics (seen : gset signature) (dir : gmap string file)
  : result (nat * list json * tally) :=
  physics_data ← load_json dir PHYSICS_FILENAME;
  lookupData ← py_get physics_data "lookupData" (JObj []);
  physics_units ← py_get lookupData "units" (JArr []);
  original_units_count ← py_len physics_units;
  physics_units ← py_iter physics_units;
  '(new_units, n) ← foldM (filter_unit seen) ([], Tally 0 0 0) physics_units;
  Ok (original_units_count, new_units, n).

(** Step 5 (lines 123-127). *)
Definition new_data (new_units : list json) : json :=
  JObj [("lookupData", JObj [("units", JArr new_units)])].

(** Step 7 (lines 135-140): [sum(len(u.get("topics", [])) for u in
    new_units)] and the sum of [len(t.get("skills", []))] over the topics of
    the new units. *)
Definition count_topics (new_units : list json) : result nat :=
  foldM (λ total u,
           topics ← py_get u "topics" (JArr []);
           len ← py_len topics;
           Ok (total + len)) 0 new_units.

Definition count_skills (new_units : list json) : result nat :=
  foldM (λ total u,
           topics ← py_get u "topics" (JArr []);
           topics ← py_iter topics;
           foldM (λ total t,
                    skills ← py_get t "skills" (JArr []);
                    len ← py_len skills;
                    Ok (total + len)) total topics) 0 new_units.

(** ** The program *)

(** A run: the lines printed, the document written to [OUTPUT_FILENAME] if
    the run got as far as line 132, and how [main] ended (it returned, or an
    exception left it). *)
Record run : Type := Run {
  console : list line;
  written : option json;
  outcome : result ()
}.

Definition main (dir : gmap string file) : run :=
  if negb (bool_decide (is_Some (dir !! PHYSICS_FILENAME))) then
    Run [ErrorPhysicsNotFound] None (Ok ())
  else if negb (bool_decide (all_files dir ≠ [])) then
    Run [ErrorNoFiles] None (Ok ())
  else
    let out := [InfoFound (length (all_files dir));
                InfoUsing (length (other_files dir))]
               ++ (InfoName <$> other_files dir) in
    match aggregate dir with
    | (warnings, Raise e) => Run (out ++ warnings) None (Raise e)
    | (warnings, Ok st) =>
        let out := out ++ warnings
                   ++ [InfoCollected (other_entry_count st)
                                     (size (seen_signatures st))] in
        match filter_physics (seen_signatures st) dir with
        | Raise e => Run out None (Raise e)
        | Ok (original_units_count, new_units, n) =>
            let doc := new_data new_units in
            match count_topics new_units, count_skills new_units with
            | Ok new_topics_count, Ok new_skills_count =>
                Run (out ++
                     [SummaryUnits original_units_count (length new_units);
                      SummaryTopics (original_topics_count n) new_topics_count;
                      SummarySkills (original_skills_count n) new_skills_count;
                      SummaryRemoved (removed_skills n);
                      SummaryOutput OUTPUT_FILENAME])
                    (Some doc) (Ok ())
            | Raise e, _ | Ok _, Raise e => Run out (Some doc) (Raise e)
            end
        end
    end.

(** ** What the traversals see *)

(** The next definitions name what the loops of steps 2, 4 and 7 go through
    in a document on which they do not raise: the value of a field, the
    elements of a field that is a sequence, and the skills met by
    [lookupData.units[*].topics[*].skills[*]], each with the three codes the
    loops have in hand when they reach it. *)
Definition get_or (x : json) (k : string) (dflt : json) : json :=
  match py_get x k dflt with Ok v => v | Raise _ => dflt end.

Definition children (x : json) (k : string) : list json :=
  match py_iter (get_or x k (JArr [])) with Ok l => l | Raise _ => [] end.

Definition units_of (data : json) : list json :=
  children (get_or data "lookupData" (JObj [])) "units".

Record entry : Type := Entry {
  unitCd : json;
  topicCd : json;
  skillCd : json;
  the_skill : json
}.

Definition topic_entries (u_cd : json) (topic : json) : list entry :=
  (λ skill, Entry u_cd (get_or topic "topicCd" JNull)
                  (get_or skill "skillCd" JNull) skill)
    <$> children topic "skills".

Definition unit_entries (unit : json) : list entry :=
  children unit "topics" ≫= topic_entries (get_or unit "unitCd" JNull).

Definition entries (units : list json) : list entry :=
  units ≫= unit_entries.

Definition entry_sig (e : entry) : result signature :=
  py_hash_sig (unitCd e) (topicCd e) (skillCd e).

(** The test of line 70: all three codes present and non-empty. *)
Definition countable (e : entry) : bool :=
  truthy (unitCd e) && truthy (topicCd e) && truthy (skillCd e).

(** The test of line 104, on a triple that can be hashed. *)
Definition is_duplicate (seen : gset signature) (u_cd t_cd s_cd : json)
  : bool :=
  match py_hash_sig u_cd t_cd s_cd with
  | Ok sg => bool_decide (sg ∈ seen)
  | Raise _ => false
  end.

Definition duplicate_entry (seen : gset signature) (e : entry) : bool :=
  is_duplicate seen (unitCd e) (topicCd e) (skillCd e).

(** Shapes on which the loops do not raise. *)
Definition is_dict (x : json) : bool :=
  match x with JObj _ => true | _ => false end.

Definition iterable (x : json) : bool :=
  match x with JArr _ | JStr _ | JObj _ => true | _ => false end.

Definition hashable (x : json) : bool :=
  match x with JArr _ | JObj _ => false | _ => true end.

(** ** The filter, as the specification words it *)

(** Keep the skills that are no duplicates; drop a topic whose kept skills
    are none, else replace its [skills]; drop a unit whose kept topics are
    none, else replace its [topics]. *)
Definition set_field (x : json) (k : string) (v : json) : json :=
  match x with JObj kvs => JObj (assoc_set kvs k v) | _ => x end.

Definition filtered_skills (seen : gset signature) (u_cd : json)
    (topic : json) : list json :=
  filter (λ skill, ¬ is_duplicate seen u_cd (get_or topic "topicCd" JNull)
                                  (get_or skill "skillCd" JNull))
         (children topic "skills").

Definition filtered_topic (seen : gset signature) (u_cd : json)
    (topic : json) : option json :=
  match filtered_skills seen u_cd topic with
  | [] => None
  | new_skills => Some (set_field topic "skills" (JArr new_skills))
  end.

Definition filtered_topics (seen : gset signature) (unit : json)
  : list json :=
  omap (filtered_topic seen (get_or unit "unitCd" JNull))
       (children unit "topics").

Definition filtered_unit (seen : gset signature) (unit : json)
  : option json :=
  match filtered_topics seen unit with
  | [] => None
  | new_topics => Some (set_field unit "topics" (JArr new_topics))
  end.

Definition filtered_units (seen : gset signature) (units : list json)
  : list json :=
  omap (filtered_unit seen) units.

(** Shape of the Physics units on which step 4 does not raise. *)
Definition skill_ok (u_cd t_cd : json) (skill : json) : bool :=
  is_dict skill
  && (hashable u_cd && hashable t_cd
      && hashable (get_or skill "skillCd" JNull)).

Definition topic_ok (u_cd : json) (topic : json) : bool :=
  is_dict topic && iterable (get_or topic "skills" (JArr []))
  && forallb (skill_ok u_cd (get_or topic "topicCd" JNull))
             (children topic "skills").

Definition unit_ok (unit : json) : bool :=
  is_dict unit && iterable (get_or unit "topics" (JArr []))
  && forallb (topic_ok (get_or unit "unitCd" JNull)) (children unit "topics").

Definition physics_ok (data : json) : bool :=
  is_dict data && is_dict (get_or data "lookupData" (JObj []))
  && iterable (get_or (get_or data "lookupData" (JObj [])) "units" (JArr []))
  && forallb unit_ok (units_of data).

(** ** The aggregation, as the specification words it *)

(** The signatures of the entries with three non-empty codes, and the state
    of step 2 after a document with entries [es]. *)
Definition entry_key (e : entry) : option signature :=
  match entry_sig e with Ok sg => Some sg | Raise _ => None end.

Definition signatures (es : list entry) : gset signature :=
  list_to_set (omap entry_key (filter (λ e, countable e) es)).

Definition collected_from (st : collected) (es : list entry) : collected :=
  Collected (signatures es ∪ seen_signatures st)
            (other_entry_count st + length (filter (λ e, countable e) es)).

(** Shape of another subject's document on which step 2 does not raise:
    only the triples that are added are hashed. *)
Definition collect_skill_ok (u_cd t_cd : json) (skill : json) : bool :=
  is_dict skill
  && (negb (truthy u_cd && truthy t_cd
            && truthy (get_or skill "skillCd" JNull))
      || (hashable u_cd && hashable t_cd
          && hashable (get_or skill "skillCd" JNull))).

Definition collect_topic_ok (u_cd : json) (topic : json) : bool :=
  is_dict topic && iterable (get_or topic "skills" (JArr []))
  && forallb (collect_skill_ok u_cd (get_or topic "topicCd" JNull))
             (children topic "skills").

Definition collect_unit_ok (unit : json) : bool :=
  is_dict unit && iterable (get_or unit "topics" (JArr []))
  && forallb (collect_topic_ok (get_or unit "unitCd" JNull))
             (children unit "topics").

Definition collect_ok (data : json) : bool :=
  is_dict data && is_dict (get_or data "lookupData" (JObj []))
  && iterable (get_or (get_or data "lookupData" (JObj [])) "units" (JArr []))
  && forallb collect_unit_ok (units_of data).

(** The documents step 2 goes through, the files it skips and the entries
    it meets. *)
Definition loads (dir : gmap string file) (path : string) : bool :=
  match load_json dir path with Ok _ => true | Raise _ => false end.

Definition loaded (dir : gmap string file) (paths : list string)
  : list json :=
  omap (λ path, match load_json dir path with
                | Ok data => Some data
                | Raise _ => None
                end) paths.

Definition skipped (dir : gmap string file) (paths : list string)
  : list string :=
  filter (λ path, ¬ loads dir path) paths.

Definition other_entries (dir : gmap string file) : list entry :=
  loaded dir (other_files dir) ≫= λ data, entries (units_of data).

(** ** Notions the statements use *)

(** Truth value of a hashable value, read off its key. *)
Definition key_truthy (k : key) : bool :=
  match k with
  | KNone => false
  | KStr s => negb (String.eqb s "")
  | KNum Zero => false
  | KNum _ => true
  end.

(** [x'] is the dict [x] with the same keys in the same order and the same
    values, but for the value of [k]. *)
Definition same_but (k : string) (x x' : json) : Prop :=
  ∃ kvs kvs',
    x = JObj kvs ∧ x' = JObj kvs' ∧
    Forall2 (λ kv kv', kv.1 = kv'.1 ∧ (kv.1 ≠ k → kv.2 = kv'.2)) kvs kvs'.

(** A topic of the output against the topic it comes from, and likewise a
    unit: the other fields are untouched, and the skills (the topics) are
    some of the original ones, in their order. *)
Definition topic_frame (topic topic' : json) : Prop :=
  same_but "skills" topic topic' ∧
  sublist (children topic' "skills") (children topic "skills").

Definition unit_frame (unit unit' : json) : Prop :=
  same_but "topics" unit unit' ∧
  ∃ kept_topics,
    sublist kept_topics (children unit "topics") ∧
    Forall2 topic_frame kept_topics (children unit' "topics").

(** Every unit has a topic and every topic has a skill. *)
Definition has_skills (topic : json) : bool :=
  match children topic "skills" with [] => false | _ => true end.

Definition has_topics (unit : json) : bool :=
  match children unit "topics" with [] => false | _ => true end.

Definition nothing_empty (units : list json) : bool :=
  forallb (λ unit, has_topics unit
                   && forallb has_skills (children unit "topics")) units.

(** ** Example directories *)

Definition ex_skill (code : string) : json :=
  JObj [("skillCd", JStr code); ("label", JStr "a skill")].

Definition ex_topic (code : string) (skills : list json) : json :=
  JObj [("topicCd", JStr code); ("skills", JArr skills);
        ("label", JStr "a topic")].

Definition ex_unit (code : string) (topics : list json) : json :=
  JObj [("unitCd", JStr code); ("topics", JArr topics);
        ("label", JStr "a unit")].

Definition ex_doc (units : list json) : json :=
  JObj [("version", JInt 1); ("lookupData", JObj [("units", JArr units)])].

Definition ex_uncoded : json := JObj [("label", JStr "a skill with no code")].

Definition ex_physics : json :=
  ex_doc [ex_unit "U1" [ex_topic "T1" [ex_skill "S1"; ex_skill "S2"]];
          ex_unit "U2" [ex_topic "T2" [ex_skill "S3"; ex_uncoded;
                                       ex_skill "S4"; ex_skill "S4"];
                        ex_topic "T3" [ex_skill "S5"]]].

Definition ex_biology : json :=
  ex_doc [ex_unit "U1" [ex_topic "T1" [ex_skill "S1"; ex_uncoded]];
          ex_unit "U2" [ex_topic "T3" [ex_skill "S5"];
                        ex_topic "T2" [ex_skill "S3"]]].

(** The Physics file, another subject, a file that does not parse, the
    output of an earlier run and a file of another kind. *)
Definition ex_dir : gmap string file :=
  list_to_map
    [(PHYSICS_FILENAME, Parsed ex_physics);
     ("Biology_TopicLookup.json", Parsed ex_biology);
     ("Broken_TopicLookup.json", Malformed);
     (OUTPUT_FILENAME, Parsed ex_physics);
     ("notes.txt", Malformed)].

(** What the run on [ex_dir] writes. *)
Definition ex_output : json :=
  new_data
    [ex_unit "U1" [ex_topic "T1" [ex_skill "S2"]];
     ex_unit "U2" [ex_topic "T2" [ex_uncoded; ex_skill "S4"; ex_skill "S4"]]].

(** The Physics file alone in the directory. *)
Definition ex_alone : gmap string file :=
  {[PHYSICS_FILENAME := Parsed ex_physics]}.

(** The Physics file alone, with a unit that has no topic. *)
Definition ex_bare_unit : json := ex_unit "U1" [].

Definition ex_bare : gmap string file :=
  {[PHYSICS_FILENAME := Parsed (ex_doc [ex_bare_unit])]}.

(** The two examples of the specification: one duplicate among two skills;
    a topic, the only one of its unit, whose every skill is a duplicate. *)
Definition ex_one_duplicate : gmap string file :=
  list_to_map
    [(PHYSICS_FILENAME,
      Parsed (ex_doc [ex_unit "U1" [ex_topic "T1" [ex_skill "S1";
                                                   ex_skill "S2"]]]));
     ("Other_TopicLookup.json",
      Parsed (ex_doc [ex_unit "U1" [ex_topic "T1" [ex_skill "S1"]]]))].

Definition ex_all_duplicates : gmap string file :=
  list_to_map
    [(PHYSICS_FILENAME,
      Parsed (ex_doc [ex_unit "U1" [ex_topic "T1" [ex_skill "S1"]];
                      ex_unit "U2" [ex_topic "T2" [ex_skill "S2"]]]));
     ("Other_TopicLookup.json",
      Parsed (ex_doc [ex_unit "U1" [ex_topic "T1" [ex_skill "S1"]]]))].

(** Codes that are no strings: [true] in another file against [1] and [1.0]
    in the Physics file; a list as a code in the Physics file. *)
Definition ex_coded (code : json) : json :=
  ex_doc [JObj [("unitCd", JStr "U1");
                ("topics", JArr [JObj [("topicCd", JStr "T1");
                                       ("skills",
                                        JArr [JObj [("skillCd", code)]])]])]].

Definition ex_numeric : gmap string file :=
  list_to_map
    [(PHYSICS_FILENAME,
      Parsed (ex_doc [JObj [("unitCd", JStr "U1");
                ("topics", JArr [JObj [("topicCd", JStr "T1");
                   ("skills",
                    JArr [JObj [("skillCd", JInt 1)];
                          JObj [("skillCd", JFloat (S754_finite false 4 (-2)))];
                          JObj [("skillCd", JInt 2)]])]])]]));
     ("Other_TopicLookup.json", Parsed (ex_coded (JBool true)))].

Definition ex_unhashable : gmap string file :=
  {[PHYSICS_FILENAME := Parsed (ex_coded (JArr []))]}.

(** A document with no [lookupData], another subject, and directories
    that hold the same two other subjects under exchanged names. *)
Definition ex_keyless : json := JObj [("version", JInt 1)].

Definition ex_chemistry : json :=
  ex_doc [ex_unit "U1" [ex_topic "T1" [ex_skill "S2"]]].




(** The Physics file beside a subject that shares no signature with it. *)
Definition ex_latin : json :=
  ex_doc [ex_unit "L1" [ex_topic "LT" [ex_skill "LS"]]].

Definition ex_unshared : gmap string file :=
  list_to_map
    [(PHYSICS_FILENAME, Parsed ex_physics);
     ("Latin_TopicLookup.json", Parsed ex_latin)].

(** The example directory with a Physics file that does not parse. *)
Definition ex_broken_physics : gmap string file :=
  <[PHYSICS_FILENAME := Malformed]> ex_dir.

(** Membership in a list that computes. *)
Ltac in_computed_list :=
  apply list_elem_of_In; vm_compute;
  repeat first [left; reflexivity | right].

(** * Properties *)

#[local] Arguments filter_skill : simpl never.
#[local] Arguments filter_topic : simpl never.
#[local] Arguments filter_unit : simpl never.
#[local] Arguments collect_skill : simpl never.
#[local] Arguments collect_topic : simpl never.
#[local] Arguments collect_unit : simpl never.
#[local] Arguments py_hash_sig : simpl never.
#[local] Arguments is_duplicate : simpl never.
#[local] Arguments get_or : simpl never.
#[local] Arguments children : simpl never.

(** ** The error monad and the loops *)

Lemma bind_Ok {A B} (m : result A) (f : A → result B) b :
  m ≫= f = Ok b ↔ ∃ a, m = Ok a ∧ f a = Ok b.
Proof.
  destruct m as [a|e]; simpl; split.
  - eauto.
  - by intros (? & [= <-] & ?).
  - done.
  - by intros (? & ? & ?).
Qed.

Lemma foldM_app {S A} (body : S → A → result S) s l1 l2 :
  foldM body s (l1 ++ l2) = foldM body s l1 ≫= λ s', foldM body s' l2.
Proof.
  revert s. induction l1 as [|x l1 IH]; intros s; simpl; [done|].
  destruct (body s x); simpl; auto.
Qed.

(** ** Dictionaries *)

Lemma assoc_get_set_eq kvs k v : assoc_get (assoc_set kvs k v) k = Some v.
Proof.
  induction kvs as [|[k' v'] kvs IH]; simpl.
  - by rewrite String.eqb_refl.
  - destruct (String.eqb k' k) eqn:E; simpl; rewrite E; auto.
Qed.

Lemma assoc_get_set_ne kvs k k' v :
  k ≠ k' → assoc_get (assoc_set kvs k v) k' = assoc_get kvs k'.
Proof.
  intros Hne. induction kvs as [|[k0 v0] kvs IH]; simpl.
  - by apply String.eqb_neq in Hne as ->.
  - destruct (String.eqb k0 k) eqn:E; simpl; [|by rewrite IH].
    apply String.eqb_eq in E as ->. by apply String.eqb_neq in Hne as ->.
Qed.

Lemma assoc_set_same kvs k v :
  assoc_get kvs k = Some v → assoc_set kvs k v = kvs.
Proof.
  induction kvs as [|[k' v'] kvs IH]; simpl; [done|].
  destruct (String.eqb k' k); [by intros [= ->]|].
  intros H. by rewrite IH.
Qed.

Lemma assoc_set_set kvs k v w :
  assoc_set (assoc_set kvs k v) k w = assoc_set kvs k w.
Proof.
  induction kvs as [|[k' v'] kvs IH]; simpl.
  - by rewrite String.eqb_refl.
  - destruct (String.eqb k' k) eqn:E; simpl; rewrite E; [done|by rewrite IH].
Qed.

Lemma py_get_dict x k dflt :
  is_dict x = true → py_get x k dflt = Ok (get_or x k dflt).
Proof. by destruct x. Qed.

Lemma py_get_not_dict x k dflt :
  is_dict x = false → py_get x k dflt = Raise AttributeError.
Proof. by destruct x. Qed.

Lemma py_iter_iterable x k :
  iterable (get_or x k (JArr [])) = true →
  py_iter (get_or x k (JArr [])) = Ok (children x k).
Proof. unfold children. by destruct (get_or x k (JArr [])). Qed.

Lemma py_len_iterable x k :
  iterable (get_or x k (JArr [])) = true →
  py_len (get_or x k (JArr [])) = Ok (length (children x k)).
Proof.
  unfold children. destruct (get_or x k (JArr [])) as [| | | |s|l|kvs];
    simpl; try done; intros _; f_equal.
  - induction s; simpl; auto.
  - by rewrite !length_fmap.
Qed.

Lemma not_iterable x :
  iterable x = false → py_iter x = Raise TypeError ∧ py_len x = Raise TypeError.
Proof. by destruct x. Qed.

Lemma get_or_set_field_eq x k v dflt :
  is_dict x = true → get_or (set_field x k v) k dflt = v.
Proof.
  destruct x; try done. intros _. unfold get_or; simpl.
  by rewrite assoc_get_set_eq.
Qed.

Lemma get_or_set_field_ne x k k' v dflt :
  k ≠ k' → get_or (set_field x k v) k' dflt = get_or x k' dflt.
Proof.
  intros Hne. destruct x; try done. unfold get_or; simpl.
  by rewrite assoc_get_set_ne.
Qed.

Lemma is_dict_set_field x k v : is_dict (set_field x k v) = is_dict x.
Proof. by destruct x. Qed.

Lemma children_set_field x k l :
  is_dict x = true → children (set_field x k (JArr l)) k = l.
Proof. intros H. unfold children. by rewrite get_or_set_field_eq. Qed.

(** ** Hashing *)

Lemma py_hash_hashable x : hashable x = true → ∃ k, py_hash x = Ok k.
Proof. destruct x; simpl; eauto; done. Qed.

Lemma py_hash_unhashable x : hashable x = false → py_hash x = Raise TypeError.
Proof. by destruct x. Qed.

Lemma py_hash_sig_Ok u t s :
  hashable u && hashable t && hashable s = true →
  ∃ sg, py_hash_sig u t s = Ok sg.
Proof.
  intros H. repeat (apply andb_prop in H as [H ?]).
  destruct (py_hash_hashable u) as [ku Hu]; [done|].
  destruct (py_hash_hashable t) as [kt Ht]; [done|].
  destruct (py_hash_hashable s) as [ks Hs]; [done|].
  exists (ku, kt, ks). unfold py_hash_sig. by rewrite Hu, Ht, Hs.
Qed.

Lemma py_hash_sig_Raise u t s :
  hashable u && hashable t && hashable s = false →
  py_hash_sig u t s = Raise TypeError.
Proof.
  intros H. unfold py_hash_sig.
  destruct (hashable u) eqn:Hu; [|by rewrite (py_hash_unhashable u)].
  destruct (py_hash_hashable u Hu) as [ku ->]; simpl.
  destruct (hashable t) eqn:Ht; [|by rewrite (py_hash_unhashable t)].
  destruct (py_hash_hashable t Ht) as [kt ->]; simpl.
  destruct (hashable s) eqn:Hs; [done|by rewrite (py_hash_unhashable s)].
Qed.

(** ** Step 4 computes the specified filter *)

Section filter_loops.
Context (seen : gset signature).

Lemma filter_skill_unfold u_cd t_cd new_skills n skill :
  filter_skill seen u_cd t_cd (new_skills, n) skill =
    s_cd ← py_get skill "skillCd" JNull;
    sg ← py_hash_sig u_cd t_cd s_cd;
    if decide (sg ∈ seen) then
      Ok (new_skills,
          Tally (original_topics_count n) (original_skills_count n)
                (S (removed_skills n)))
    else Ok (new_skills ++ [skill], n).
Proof. done. Qed.

(** The loop over the skills of a topic either raises, on a skill that is
    no dict or a code that cannot be hashed, or appends the skills that
    are no duplicates and counts the others. *)
Lemma filter_skills_run u_cd t_cd skills new_skills n :
  match foldM (filter_skill seen u_cd t_cd) (new_skills, n) skills with
  | Ok r =>
      forallb (skill_ok u_cd t_cd) skills = true ∧
      r = (new_skills ++
             filter (λ skill, ¬ is_duplicate seen u_cd t_cd
                                  (get_or skill "skillCd" JNull)) skills,
           Tally (original_topics_count n) (original_skills_count n)
                 (removed_skills n +
                  length (filter (λ skill, is_duplicate seen u_cd t_cd
                                    (get_or skill "skillCd" JNull)) skills)))
  | Raise _ => forallb (skill_ok u_cd t_cd) skills = false
  end.
Proof.
  revert new_skills n.
  induction skills as [|skill skills IH]; intros new_skills n.
  { simpl. split; [done|]. rewrite app_nil_r, Nat.add_0_r. by destruct n. }
  cbn [foldM forallb]. unfold skill_ok at 1 3.
  rewrite filter_skill_unfold.
  destruct (is_dict skill) eqn:Hd; simpl;
    [rewrite (py_get_dict _ _ _ Hd)|by rewrite (py_get_not_dict _ _ _ Hd)].
  simpl.
  destruct (hashable u_cd && hashable t_cd
            && hashable (get_or skill "skillCd" JNull)) eqn:Hh; simpl;
    [|by rewrite (py_hash_sig_Raise _ _ _ Hh)].
  destruct (py_hash_sig_Ok _ _ _ Hh) as [sg Hsg]. rewrite Hsg; simpl.
  assert (Hdup : is_duplicate seen u_cd t_cd (get_or skill "skillCd" JNull)
                 = bool_decide (sg ∈ seen))
    by (unfold is_duplicate; by rewrite Hsg).
  destruct (decide (sg ∈ seen)) as [Hin|Hin]; simpl.
  - assert (Hskill : is_duplicate seen u_cd t_cd
                       (get_or skill "skillCd" JNull))
      by (rewrite Hdup; by apply bool_decide_pack).
    specialize (IH new_skills
      (Tally (original_topics_count n) (original_skills_count n)
             (S (removed_skills n)))).
    destruct (foldM _ _ skills) as [r|e]; [|done].
    destruct IH as [? ->]. split; [done|].
    rewrite filter_cons_False by naive_solver.
    rewrite filter_cons_True by done.
    simpl. do 2 f_equal. lia.
  - assert (Hskill : ¬ is_duplicate seen u_cd t_cd
                         (get_or skill "skillCd" JNull))
      by (rewrite Hdup; by intros ?%bool_decide_unpack).
    specialize (IH (new_skills ++ [skill]) n).
    destruct (foldM _ _ skills) as [r|e]; [|done].
    destruct IH as [? ->]. split; [done|].
    rewrite filter_cons_True by done.
    rewrite filter_cons_False by done.
    by rewrite <- app_assoc.
Qed.

Lemma filter_topic_unfold u_cd new_topics n topic :
  filter_topic seen u_cd (new_topics, n) topic =
    t_cd ← py_get topic "topicCd" JNull;
    skills ← py_get topic "skills" (JArr []);
    len ← py_len skills;
    skills ← py_iter skills;
    '(new_skills, n) ←
      foldM (filter_skill seen u_cd t_cd)
            ([], Tally (original_topics_count n)
                       (original_skills_count n + len) (removed_skills n))
            skills;
    if truthy (JArr new_skills) then
      topic_copy ← py_dict topic;
      Ok (new_topics
            ++ [JObj (assoc_set topic_copy "skills" (JArr new_skills))], n)
    else Ok (new_topics, n).
Proof. done. Qed.

Lemma filter_topic_entries u_cd topic :
  filter (duplicate_entry seen) (topic_entries u_cd topic) =
  (λ skill, Entry u_cd (get_or topic "topicCd" JNull)
                  (get_or skill "skillCd" JNull) skill)
    <$> filter (λ skill, is_duplicate seen u_cd (get_or topic "topicCd" JNull)
                           (get_or skill "skillCd" JNull))
               (children topic "skills").
Proof.
  unfold topic_entries.
  induction (children topic "skills") as [|skill skills IH]; [done|].
  rewrite fmap_cons, !filter_cons, IH. unfold duplicate_entry at 1; simpl.
  by destruct (decide _).
Qed.

(** One topic: it raises, or it is dropped, or its copy with the kept
    skills is appended. *)
Lemma filter_topic_run u_cd topic new_topics n :
  match filter_topic seen u_cd (new_topics, n) topic with
  | Ok r =>
      topic_ok u_cd topic = true ∧
      r = (new_topics ++ option_list (filtered_topic seen u_cd topic),
           Tally (original_topics_count n)
                 (original_skills_count n
                  + length (topic_entries u_cd topic))
                 (removed_skills n
                  + length (filter (duplicate_entry seen)
                                   (topic_entries u_cd topic))))
  | Raise _ => topic_ok u_cd topic = false
  end.
Proof.
  rewrite filter_topic_unfold, filter_topic_entries. unfold topic_ok.
  unfold topic_entries. rewrite !length_fmap.
  destruct (is_dict topic) eqn:Hd; simpl;
    [rewrite !py_get_dict by done|by rewrite !py_get_not_dict by done].
  simpl.
  destruct (iterable (get_or topic "skills" (JArr []))) eqn:Hi; simpl;
    [|by destruct (not_iterable _ Hi) as [_ ->]].
  rewrite py_len_iterable, py_iter_iterable by done. simpl.
  pose proof (filter_skills_run u_cd (get_or topic "topicCd" JNull)
    (children topic "skills") []
    (Tally (original_topics_count n)
           (original_skills_count n + length (children topic "skills"))
           (removed_skills n))) as Hrun.
  destruct (foldM _ _ (children topic "skills")) as [[new_skills n']|e];
    [|done].
  destruct Hrun as [Hok Heq]. injection Heq as -> ->. simpl.
  unfold filtered_topic, filtered_skills.
  destruct (filter (λ skill, ¬ _) (children topic "skills")) eqn:Hkept;
    simpl.
  - by rewrite app_nil_r.
  - by destruct topic.
Qed.

Lemma filter_topics_run u_cd topics new_topics n :
  match foldM (filter_topic seen u_cd) (new_topics, n) topics with
  | Ok r =>
      forallb (topic_ok u_cd) topics = true ∧
      r = (new_topics ++ omap (filtered_topic seen u_cd) topics,
           Tally (original_topics_count n)
                 (original_skills_count n
                  + length (topics ≫= topic_entries u_cd))
                 (removed_skills n
                  + length (filter (duplicate_entry seen)
                                   (topics ≫= topic_entries u_cd))))
  | Raise _ => forallb (topic_ok u_cd) topics = false
  end.
Proof.
  revert new_topics n.
  induction topics as [|topic topics IH]; intros new_topics n.
  { simpl. split; [done|]. rewrite app_nil_r, !Nat.add_0_r. by destruct n. }
  cbn [foldM forallb omap]. rewrite bind_cons, filter_app, !length_app.
  pose proof (filter_topic_run u_cd topic new_topics n) as Hrun.
  destruct (filter_topic _ _ _ topic) as [[new_topics' n']|e]; simpl;
    [|by rewrite Hrun].
  destruct Hrun as [-> Heq]. injection Heq as -> ->. simpl.
  specialize (IH (new_topics ++ option_list (filtered_topic seen u_cd topic))
    (Tally (original_topics_count n)
           (original_skills_count n + length (topic_entries u_cd topic))
           (removed_skills n
            + length (filter (duplicate_entry seen)
                             (topic_entries u_cd topic))))).
  destruct (foldM _ _ topics) as [r|e]; [|done].
  destruct IH as [-> ->]. split; [done|]. simpl.
  rewrite <- app_assoc, !Nat.add_assoc.
  by destruct (filtered_topic seen u_cd topic).
Qed.

Lemma filter_unit_unfold new_units n unit :
  filter_unit seen (new_units, n) unit =
    u_cd ← py_get unit "unitCd" JNull;
    topics ← py_get unit "topics" (JArr []);
    len ← py_len topics;
    topics ← py_iter topics;
    '(new_topics, n) ←
      foldM (filter_topic seen u_cd)
            ([], Tally (original_topics_count n + len)
                       (original_skills_count n) (removed_skills n))
            topics;
    if truthy (JArr new_topics) then
      unit_copy ← py_dict unit;
      Ok (new_units
            ++ [JObj (assoc_set unit_copy "topics" (JArr new_topics))], n)
    else Ok (new_units, n).
Proof. done. Qed.

Lemma filter_unit_run unit new_units n :
  match filter_unit seen (new_units, n) unit with
  | Ok r =>
      unit_ok unit = true ∧
      r = (new_units ++ option_list (filtered_unit seen unit),
           Tally (original_topics_count n
                  + length (children unit "topics"))
                 (original_skills_count n + length (unit_entries unit))
                 (removed_skills n
                  + length (filter (duplicate_entry seen)
                                   (unit_entries unit))))
  | Raise _ => unit_ok unit = false
  end.
Proof.
  rewrite filter_unit_unfold. unfold unit_ok, unit_entries.
  destruct (is_dict unit) eqn:Hd; simpl;
    [rewrite !py_get_dict by done|by rewrite !py_get_not_dict by done].
  simpl.
  destruct (iterable (get_or unit "topics" (JArr []))) eqn:Hi; simpl;
    [|by destruct (not_iterable _ Hi) as [_ ->]].
  rewrite py_len_iterable, py_iter_iterable by done. simpl.
  pose proof (filter_topics_run (get_or unit "unitCd" JNull)
    (children unit "topics") []
    (Tally (original_topics_count n + length (children unit "topics"))
           (original_skills_count n) (removed_skills n))) as Hrun.
  destruct (foldM _ _ (children unit "topics")) as [[new_topics n']|e];
    [|done].
  destruct Hrun as [Hok Heq]. injection Heq as -> ->. simpl.
  unfold filtered_unit, filtered_topics.
  destruct (omap _ (children unit "topics")) eqn:Hkept; simpl.
  - by rewrite app_nil_r.
  - by destruct unit.
Qed.

(** The loop of step 4 either raises, on units of the wrong shape, or
    computes the specified filter and the three counts. *)
Lemma filter_units_run units new_units n :
  match foldM (filter_unit seen) (new_units, n) units with
  | Ok r =>
      forallb unit_ok units = true ∧
      r = (new_units ++ filtered_units seen units,
           Tally (original_topics_count n
                  + length (units ≫= λ unit, children unit "topics"))
                 (original_skills_count n + length (entries units))
                 (removed_skills n
                  + length (filter (duplicate_entry seen) (entries units))))
  | Raise _ => forallb unit_ok units = false
  end.
Proof.
  revert new_units n.
  induction units as [|unit units IH]; intros new_units n.
  { simpl. split; [done|]. rewrite app_nil_r, !Nat.add_0_r. by destruct n. }
  unfold entries, filtered_units in *.
  cbn [foldM forallb omap]. rewrite !bind_cons, filter_app, !length_app.
  pose proof (filter_unit_run unit new_units n) as Hrun.
  destruct (filter_unit _ _ unit) as [[new_units' n']|e]; simpl;
    [|by rewrite Hrun].
  destruct Hrun as [-> Heq]. injection Heq as -> ->. simpl.
  specialize (IH (new_units ++ option_list (filtered_unit seen unit))
    (Tally (original_topics_count n + length (children unit "topics"))
           (original_skills_count n + length (unit_entries unit))
           (removed_skills n
            + length (filter (duplicate_entry seen) (unit_entries unit))))).
  destruct (foldM _ _ units) as [r|e]; [|done].
  destruct IH as [-> ->]. split; [done|]. simpl.
  rewrite <- app_assoc, !Nat.add_assoc.
  by destruct (filtered_unit seen unit).
Qed.

End filter_loops.

(** ** Step 2 computes the specified aggregation *)

Lemma collected_from_nil st : collected_from st [] = st.
Proof.
  destruct st as [seen count]. unfold collected_from, signatures; simpl.
  f_equal; [set_solver|lia].
Qed.

Lemma signatures_app es1 es2 :
  signatures (es1 ++ es2) = signatures es1 ∪ signatures es2.
Proof.
  unfold signatures. rewrite filter_app, omap_app.
  apply list_to_set_app_L.
Qed.

Lemma collected_from_app st es1 es2 :
  collected_from (collected_from st es1) es2 = collected_from st (es1 ++ es2).
Proof.
  unfold collected_from; simpl.
  rewrite signatures_app, filter_app, length_app. f_equal; [set_solver|lia].
Qed.

Lemma collect_skill_run u_cd t_cd st skill :
  match collect_skill u_cd t_cd st skill with
  | Ok st' =>
      collect_skill_ok u_cd t_cd skill = true ∧
      st' = collected_from st
              [Entry u_cd t_cd (get_or skill "skillCd" JNull) skill]
  | Raise _ => collect_skill_ok u_cd t_cd skill = false
  end.
Proof.
  unfold collect_skill, collect_skill_ok.
  destruct (is_dict skill) eqn:Hd; simpl;
    [rewrite !py_get_dict by done|by rewrite !py_get_not_dict by done].
  simpl. unfold collected_from, signatures.
  destruct (truthy u_cd && truthy t_cd
            && truthy (get_or skill "skillCd" JNull)) eqn:Ht; simpl.
  - destruct (hashable u_cd && hashable t_cd
              && hashable (get_or skill "skillCd" JNull)) eqn:Hh; simpl;
      [|by rewrite (py_hash_sig_Raise _ _ _ Hh)].
    destruct (py_hash_sig_Ok _ _ _ Hh) as [sg Hsg]. rewrite Hsg; simpl.
    split; [done|].
    rewrite filter_cons_True by (unfold countable; simpl; by rewrite Ht).
    unfold entry_key, entry_sig; simpl. rewrite Hsg; simpl.
    f_equal; [set_solver|lia].
  - split; [done|].
    rewrite filter_cons_False
      by (unfold countable; simpl; rewrite Ht; by intros []).
    simpl. destruct st; simpl. f_equal; [set_solver|lia].
Qed.

(** A loop whose body either raises or makes a known step does the same on
    the whole list. *)
Lemma foldM_run {S A} (body : S → A → result S) (ok : A → bool)
    (step : S → A → S) :
  (∀ s x, match body s x with
          | Ok s' => ok x = true ∧ s' = step s x
          | Raise _ => ok x = false
          end) →
  ∀ l s, match foldM body s l with
         | Ok s' => forallb ok l = true ∧ s' = foldl step s l
         | Raise _ => forallb ok l = false
         end.
Proof.
  intros Hbody l. induction l as [|x l IH]; intros s; simpl; [done|].
  specialize (Hbody s x). destruct (body s x) as [s1|e]; simpl.
  - destruct Hbody as [-> ->]. apply IH.
  - by rewrite Hbody.
Qed.

Lemma foldl_collected_from {A} (f : A → list entry) l st :
  foldl (λ st x, collected_from st (f x)) st l = collected_from st (l ≫= f).
Proof.
  revert st. induction l as [|x l IH]; intros st; simpl.
  - by rewrite collected_from_nil.
  - by rewrite IH, collected_from_app.
Qed.

Lemma bind_singleton {A B} (g : A → B) (l : list A) :
  l ≫= (λ x, [g x]) = g <$> l.
Proof.
  induction l as [|x l IH]; [done|]. by rewrite bind_cons, fmap_cons, IH.
Qed.

Lemma collect_topic_run u_cd st topic :
  match collect_topic u_cd st topic with
  | Ok st' =>
      collect_topic_ok u_cd topic = true ∧
      st' = collected_from st (topic_entries u_cd topic)
  | Raise _ => collect_topic_ok u_cd topic = false
  end.
Proof.
  unfold collect_topic, collect_topic_ok, topic_entries.
  destruct (is_dict topic) eqn:Hd; simpl;
    [rewrite !py_get_dict by done|by rewrite !py_get_not_dict by done].
  simpl.
  destruct (iterable (get_or topic "skills" (JArr []))) eqn:Hi; simpl;
    [|by destruct (not_iterable _ Hi) as [-> _]].
  rewrite py_iter_iterable by done. simpl.
  pose proof (foldM_run _ _
    (λ st skill, collected_from st
       [Entry u_cd (get_or topic "topicCd" JNull)
              (get_or skill "skillCd" JNull) skill])
    (collect_skill_run u_cd (get_or topic "topicCd" JNull))
    (children topic "skills") st) as Hrun.
  destruct (foldM _ _ (children topic "skills")) as [st'|e]; [|done].
  destruct Hrun as [-> ->]. split; [done|].
  rewrite (foldl_collected_from (λ skill, [_])).
  by rewrite (bind_singleton (λ skill, Entry _ _ _ skill)).
Qed.

Lemma collect_unit_run st unit :
  match collect_unit st unit with
  | Ok st' =>
      collect_unit_ok unit = true ∧
      st' = collected_from st (unit_entries unit)
  | Raise _ => collect_unit_ok unit = false
  end.
Proof.
  unfold collect_unit, collect_unit_ok, unit_entries.
  destruct (is_dict unit) eqn:Hd; simpl;
    [rewrite !py_get_dict by done|by rewrite !py_get_not_dict by done].
  simpl.
  destruct (iterable (get_or unit "topics" (JArr []))) eqn:Hi; simpl;
    [|by destruct (not_iterable _ Hi) as [-> _]].
  rewrite py_iter_iterable by done. simpl.
  pose proof (foldM_run _ _
    (λ st topic, collected_from st
       (topic_entries (get_or unit "unitCd" JNull) topic))
    (collect_topic_run (get_or unit "unitCd" JNull))
    (children unit "topics") st) as Hrun.
  destruct (foldM _ _ (children unit "topics")) as [st'|e]; [|done].
  destruct Hrun as [-> ->]. split; [done|].
  by rewrite foldl_collected_from.
Qed.

(** Step 2 on one document either raises, on a document of the wrong
    shape, or adds the signatures of its countable entries. *)
Lemma collect_data_run data st :
  match collect_data st data with
  | Ok st' =>
      collect_ok data = true ∧
      st' = collected_from st (entries (units_of data))
  | Raise _ => collect_ok data = false
  end.
Proof.
  unfold collect_data, collect_ok, entries, units_of.
  destruct (is_dict data) eqn:Hd; simpl;
    [rewrite !py_get_dict by done|by rewrite !py_get_not_dict by done].
  simpl.
  destruct (is_dict (get_or data "lookupData" (JObj []))) eqn:Hl; simpl;
    [rewrite !py_get_dict by done|by rewrite !py_get_not_dict by done].
  simpl.
  destruct (iterable (get_or (get_or data "lookupData" (JObj [])) "units"
                             (JArr []))) eqn:Hi; simpl;
    [|by destruct (not_iterable _ Hi) as [-> _]].
  rewrite py_iter_iterable by done. simpl.
  pose proof (foldM_run _ _
    (λ st unit, collected_from st (unit_entries unit)) collect_unit_run
    (children (get_or data "lookupData" (JObj [])) "units") st) as Hrun.
  destruct (foldM _ _ (children _ "units")) as [st'|e]; [|done].
  destruct Hrun as [-> ->]. split; [done|].
  by rewrite foldl_collected_from.
Qed.

(** ** The specified filter *)

Lemma children_not_dict x k : is_dict x = false → children x k = [].
Proof. by destruct x. Qed.

Lemma children_cons_dict x k y l : children x k = y :: l → is_dict x = true.
Proof.
  destruct (is_dict x) eqn:Hd; [done|]. by rewrite children_not_dict.
Qed.

Lemma set_field_set_field x k v w :
  set_field (set_field x k v) k w = set_field x k w.
Proof. destruct x; simpl; try done. by rewrite assoc_set_set. Qed.

Lemma filter_filter_same {A} (P : A → Prop) `{!∀ x, Decision (P x)}
    (l : list A) :
  filter P (filter P l) = filter P l.
Proof.
  induction l as [|x l IH]; [done|]. rewrite filter_cons.
  destruct (decide (P x)); [|done]. by rewrite filter_cons_True, IH.
Qed.

Section filtered.
Context (seen : gset signature).

Lemma filtered_topic_Some u_cd topic topic' :
  filtered_topic seen u_cd topic = Some topic' →
  is_dict topic = true ∧ filtered_skills seen u_cd topic ≠ [] ∧
  topic' = set_field topic "skills" (JArr (filtered_skills seen u_cd topic)).
Proof.
  unfold filtered_topic.
  destruct (filtered_skills seen u_cd topic) as [|skill kept] eqn:Hkept;
    [done|].
  intros [= <-]. split; [|done].
  unfold filtered_skills in Hkept.
  destruct (children topic "skills") as [|y l] eqn:Hc; [done|].
  by eapply children_cons_dict.
Qed.

Lemma filtered_topic_None u_cd topic :
  filtered_topic seen u_cd topic = None ↔ filtered_skills seen u_cd topic = [].
Proof. unfold filtered_topic. by destruct (filtered_skills _ _ _). Qed.

Lemma filtered_unit_Some unit unit' :
  filtered_unit seen unit = Some unit' →
  is_dict unit = true ∧ filtered_topics seen unit ≠ [] ∧
  unit' = set_field unit "topics" (JArr (filtered_topics seen unit)).
Proof.
  unfold filtered_unit.
  destruct (filtered_topics seen unit) as [|topic kept] eqn:Hkept; [done|].
  intros [= <-]. split; [|done].
  unfold filtered_topics in Hkept.
  destruct (children unit "topics") as [|y l] eqn:Hc; [done|].
  by eapply children_cons_dict.
Qed.

Lemma filtered_unit_None unit :
  filtered_unit seen unit = None ↔ filtered_topics seen unit = [].
Proof. unfold filtered_unit. by destruct (filtered_topics _ _). Qed.

(** The entries of the kept topics and units are the entries that are no
    duplicates, in their order. *)
Lemma filtered_topic_entries u_cd topic :
  option_list (filtered_topic seen u_cd topic) ≫= topic_entries u_cd =
  filter (λ e, ¬ duplicate_entry seen e) (topic_entries u_cd topic).
Proof.
  assert (Hfilter :
    filter (λ e, ¬ duplicate_entry seen e) (topic_entries u_cd topic) =
    (λ skill, Entry u_cd (get_or topic "topicCd" JNull)
                    (get_or skill "skillCd" JNull) skill)
      <$> filtered_skills seen u_cd topic).
  { unfold topic_entries, filtered_skills.
    induction (children topic "skills") as [|skill skills IH]; [done|].
    rewrite fmap_cons, !filter_cons, IH. unfold duplicate_entry at 1; simpl.
    by destruct (decide _). }
  rewrite Hfilter.
  destruct (filtered_topic seen u_cd topic) as [topic'|] eqn:Hf; simpl.
  - apply filtered_topic_Some in Hf as (Hd & _ & ->).
    rewrite app_nil_r. unfold topic_entries at 1.
    rewrite children_set_field by done.
    by rewrite get_or_set_field_ne by done.
  - apply filtered_topic_None in Hf. by rewrite Hf.
Qed.

Lemma filtered_topics_entries u_cd topics :
  omap (filtered_topic seen u_cd) topics ≫= topic_entries u_cd =
  filter (λ e, ¬ duplicate_entry seen e) (topics ≫= topic_entries u_cd).
Proof.
  induction topics as [|topic topics IH]; [done|].
  rewrite bind_cons, filter_app, <- IH, <- filtered_topic_entries. simpl.
  destruct (filtered_topic seen u_cd topic); simpl; [|done].
  by rewrite app_nil_r.
Qed.

Lemma filtered_unit_entries unit :
  option_list (filtered_unit seen unit) ≫= unit_entries =
  filter (λ e, ¬ duplicate_entry seen e) (unit_entries unit).
Proof.
  unfold unit_entries at 2. rewrite <- filtered_topics_entries.
  fold (filtered_topics seen unit).
  destruct (filtered_unit seen unit) as [unit'|] eqn:Hf; simpl.
  - apply filtered_unit_Some in Hf as (Hd & _ & ->).
    rewrite app_nil_r. unfold unit_entries.
    rewrite children_set_field by done.
    by rewrite get_or_set_field_ne by done.
  - apply filtered_unit_None in Hf. by rewrite Hf.
Qed.

Lemma filtered_units_entries units :
  entries (filtered_units seen units) =
  filter (λ e, ¬ duplicate_entry seen e) (entries units).
Proof.
  unfold entries, filtered_units.
  induction units as [|unit units IH]; [done|].
  rewrite bind_cons, filter_app, <- IH, <- filtered_unit_entries. simpl.
  destruct (filtered_unit seen unit); simpl; [|done].
  by rewrite app_nil_r.
Qed.

End filtered.

(** ** Filtering what is already filtered *)

Lemma omap_fixed {A} (f : A → option A) (l : list A) :
  (∀ x y, f x = Some y → f y = Some y) → omap f (omap f l) = omap f l.
Proof.
  intros Hf. induction l as [|x l IH]; simpl; [done|].
  destruct (f x) as [y|] eqn:Hx; simpl; [|done].
  rewrite (Hf _ _ Hx). f_equal. exact IH.
Qed.

Lemma forallb_filter {A} (p : A → bool) (P : A → Prop)
    `{!∀ x, Decision (P x)} (l : list A) :
  forallb p l = true → forallb p (filter P l) = true.
Proof.
  induction l as [|x l IH]; simpl; [done|].
  intros [Hx Hl]%andb_prop. rewrite filter_cons.
  destruct (decide (P x)); simpl; [rewrite Hx|]; auto.
Qed.

Lemma forallb_omap {A} (p : A → bool) (f : A → option A) (l : list A) :
  (∀ x y, f x = Some y → p x = true → p y = true) →
  forallb p l = true → forallb p (omap f l) = true.
Proof.
  intros Hf. induction l as [|x l IH]; simpl; [done|].
  intros [Hx Hl]%andb_prop.
  destruct (f x) as [y|] eqn:Hy; simpl; [rewrite (Hf _ _ Hy Hx)|]; auto.
Qed.

Section refilter.
Context (seen : gset signature).

Lemma filtered_topic_fixed u_cd topic topic' :
  filtered_topic seen u_cd topic = Some topic' →
  filtered_topic seen u_cd topic' = Some topic'.
Proof.
  intros (Hd & Hne & ->)%filtered_topic_Some.
  assert (Hkept : filtered_skills seen u_cd
            (set_field topic "skills" (JArr (filtered_skills seen u_cd topic)))
          = filtered_skills seen u_cd topic).
  { unfold filtered_skills at 1.
    rewrite children_set_field, get_or_set_field_ne by done.
    apply filter_filter_same. }
  unfold filtered_topic at 1. rewrite Hkept.
  destruct (filtered_skills seen u_cd topic); [done|].
  by rewrite set_field_set_field.
Qed.

Lemma filtered_unit_fixed unit unit' :
  filtered_unit seen unit = Some unit' →
  filtered_unit seen unit' = Some unit'.
Proof.
  intros (Hd & Hne & ->)%filtered_unit_Some.
  assert (Hkept : filtered_topics seen
            (set_field unit "topics" (JArr (filtered_topics seen unit)))
          = filtered_topics seen unit).
  { unfold filtered_topics at 1.
    rewrite children_set_field, get_or_set_field_ne by done.
    apply omap_fixed, filtered_topic_fixed. }
  unfold filtered_unit at 1. rewrite Hkept.
  destruct (filtered_topics seen unit); [done|].
  by rewrite set_field_set_field.
Qed.

Lemma filtered_units_fixed units :
  filtered_units seen (filtered_units seen units) = filtered_units seen units.
Proof. apply omap_fixed, filtered_unit_fixed. Qed.

Lemma filtered_topic_ok u_cd topic topic' :
  filtered_topic seen u_cd topic = Some topic' →
  topic_ok u_cd topic = true → topic_ok u_cd topic' = true.
Proof.
  intros (Hd & Hne & ->)%filtered_topic_Some. unfold topic_ok.
  intros [[_ _]%andb_prop Hskills]%andb_prop.
  rewrite is_dict_set_field, Hd, get_or_set_field_eq by done.
  rewrite children_set_field, get_or_set_field_ne by done. simpl.
  by apply forallb_filter.
Qed.

Lemma filtered_unit_ok unit unit' :
  filtered_unit seen unit = Some unit' →
  unit_ok unit = true → unit_ok unit' = true.
Proof.
  intros (Hd & Hne & ->)%filtered_unit_Some. unfold unit_ok.
  intros [[_ _]%andb_prop Htopics]%andb_prop.
  rewrite is_dict_set_field, Hd, get_or_set_field_eq by done.
  rewrite children_set_field, get_or_set_field_ne by done. simpl.
  revert Htopics. apply forallb_omap, filtered_topic_ok.
Qed.

Lemma filtered_units_ok units :
  forallb unit_ok units = true →
  forallb unit_ok (filtered_units seen units) = true.
Proof. apply forallb_omap, filtered_unit_ok. Qed.

End refilter.

(** ** Step 7 on units of the right shape *)

Lemma count_topics_from units total :
  forallb unit_ok units = true →
  foldM (λ total u,
           topics ← py_get u "topics" (JArr []);
           len ← py_len topics;
           Ok (total + len)) total units
  = Ok (total + length (units ≫= λ unit, children unit "topics")).
Proof.
  revert total.
  induction units as [|unit units IH]; intros total; cbn [foldM forallb].
  { intros _. simpl. f_equal. lia. }
  intros [[[Hd Hi]%andb_prop _]%andb_prop Hunits]%andb_prop.
  rewrite py_get_dict by done. cbn [mbind result_bind].
  rewrite py_len_iterable by done. cbn [mbind result_bind].
  rewrite IH by done. f_equal. rewrite bind_cons, length_app. lia.
Qed.

Lemma count_topics_run units :
  forallb unit_ok units = true →
  count_topics units = Ok (length (units ≫= λ unit, children unit "topics")).
Proof. intros H. unfold count_topics. by rewrite count_topics_from. Qed.

Lemma count_skills_topics u_cd topics total :
  forallb (topic_ok u_cd) topics = true →
  foldM (λ total t,
           skills ← py_get t "skills" (JArr []);
           len ← py_len skills;
           Ok (total + len)) total topics
  = Ok (total + length (topics ≫= topic_entries u_cd)).
Proof.
  revert total.
  induction topics as [|topic topics IH]; intros total; cbn [foldM forallb].
  { intros _. simpl. f_equal. lia. }
  intros [[[Hd Hi]%andb_prop _]%andb_prop Htopics]%andb_prop.
  rewrite py_get_dict by done. cbn [mbind result_bind].
  rewrite py_len_iterable by done. cbn [mbind result_bind].
  rewrite IH by done. f_equal. rewrite bind_cons, length_app.
  unfold topic_entries at 2. rewrite length_fmap. lia.
Qed.

Lemma count_skills_from units total :
  forallb unit_ok units = true →
  foldM (λ total u,
           topics ← py_get u "topics" (JArr []);
           topics ← py_iter topics;
           foldM (λ total t,
                    skills ← py_get t "skills" (JArr []);
                    len ← py_len skills;
                    Ok (total + len)) total topics) total units
  = Ok (total + length (entries units)).
Proof.
  unfold entries.
  revert total.
  induction units as [|unit units IH]; intros total; cbn [foldM forallb].
  { intros _. simpl. f_equal. lia. }
  intros [[[Hd Hi]%andb_prop Htopics]%andb_prop Hunits]%andb_prop.
  rewrite py_get_dict by done. cbn [mbind result_bind].
  rewrite py_iter_iterable by done. cbn [mbind result_bind].
  rewrite (count_skills_topics (get_or unit "unitCd" JNull)) by done.
  cbn [mbind result_bind].
  rewrite IH by done. f_equal. rewrite bind_cons, length_app.
  unfold unit_entries at 2. lia.
Qed.

Lemma count_skills_run units :
  forallb unit_ok units = true →
  count_skills units = Ok (length (entries units)).
Proof. intros H. unfold count_skills. by rewrite count_skills_from. Qed.

(** ** The loop over the other files *)

Lemma loaded_cons_Ok dir path paths data :
  load_json dir path = Ok data →
  loaded dir (path :: paths) = data :: loaded dir paths ∧
  skipped dir (path :: paths) = skipped dir paths.
Proof.
  intros Hl. unfold loaded, skipped. simpl. rewrite Hl. split; [done|].
  apply filter_cons_False. unfold loads. rewrite Hl. by intros [].
Qed.

Lemma loaded_cons_Raise dir path paths e :
  load_json dir path = Raise e →
  loaded dir (path :: paths) = loaded dir paths ∧
  skipped dir (path :: paths) = path :: skipped dir paths.
Proof.
  intros Hl. unfold loaded, skipped. simpl. rewrite Hl. split; [done|].
  apply filter_cons_True. unfold loads. rewrite Hl. by intros [].
Qed.

Lemma collect_files_run dir paths st :
  match collect_files dir paths st with
  | (out, Ok st') =>
      forallb collect_ok (loaded dir paths) = true ∧
      out = WarnSkipping <$> skipped dir paths ∧
      st' = collected_from st
              (loaded dir paths ≫= λ data, entries (units_of data))
  | (_, Raise _) => forallb collect_ok (loaded dir paths) = false
  end.
Proof.
  revert st. induction paths as [|path paths IH]; intros st.
  { simpl. by rewrite collected_from_nil. }
  cbn [collect_files].
  destruct (load_json dir path) as [data|e] eqn:Hl.
  - destruct (loaded_cons_Ok dir path paths data Hl) as [-> ->].
    cbn [forallb]. rewrite bind_cons.
    pose proof (collect_data_run data st) as Hdata.
    destruct (collect_data st data) as [st1|e]; [|by rewrite Hdata].
    destruct Hdata as [-> Hst1]. specialize (IH st1).
    destruct (collect_files dir paths st1) as [out [st'|e]]; [|done].
    destruct IH as (-> & -> & ->). by rewrite Hst1, collected_from_app.
  - destruct (loaded_cons_Raise dir path paths e Hl) as [-> ->].
    specialize (IH st).
    destruct (collect_files dir paths st) as [out [st'|e']]; [|done].
    by destruct IH as (-> & -> & ->).
Qed.

(** ** The order of the directory listing *)

Lemma compare_not_Gt_trans a b c :
  String.compare a b ≠ Gt → String.compare b c ≠ Gt → String.compare a c ≠ Gt.
Proof.
  revert b c. induction a as [|x a IH]; intros [|y b] [|z c]; simpl; try done.
  unfold Ascii.compare.
  destruct (N.compare_spec (Ascii.N_of_ascii x) (Ascii.N_of_ascii y)),
           (N.compare_spec (Ascii.N_of_ascii y) (Ascii.N_of_ascii z)),
           (N.compare_spec (Ascii.N_of_ascii x) (Ascii.N_of_ascii z));
    try done; try lia; eauto.
Qed.

#[local] Instance path_le_trans : Transitive path_le.
Proof.
  intros a b c. unfold path_le, String.leb. intros Hab Hbc.
  pose proof (compare_not_Gt_trans a b c) as Hac.
  destruct (String.compare a b), (String.compare b c),
    (String.compare a c); try done; by destruct Hac.
Qed.

#[local] Instance path_le_antisym : AntiSymm (=) path_le.
Proof. intros a b. apply String.leb_antisym. Qed.

#[local] Instance path_le_total : Total path_le.
Proof. intros a b. apply String.leb_total. Qed.

Lemma StronglySorted_filter {A} (R : relation A) (P : A → Prop)
    `{!∀ x, Decision (P x)} (l : list A) :
  StronglySorted R l → StronglySorted R (filter P l).
Proof.
  induction 1 as [|x l Hl IH Hx]; [constructor|].
  rewrite filter_cons. destruct (decide (P x)); [|done].
  constructor; [done|]. rewrite Forall_forall in *.
  intros y [_ Hy]%list_elem_of_filter. auto.
Qed.

Lemma sorted_paths_eq (l1 l2 : list string) :
  l1 ≡ₚ l2 → merge_sort path_le l1 = merge_sort path_le l2.
Proof.
  intros Hperm. apply (StronglySorted_unique path_le);
    [apply StronglySorted_merge_sort; apply _..|].
  by rewrite !merge_sort_Permutation.
Qed.

Lemma filter_sorted_paths (P : string → Prop) `{!∀ x, Decision (P x)} l :
  filter P (merge_sort path_le l) = merge_sort path_le (filter P l).
Proof.
  apply (StronglySorted_unique path_le).
  - apply StronglySorted_filter, StronglySorted_merge_sort; apply _.
  - apply StronglySorted_merge_sort; apply _.
  - by rewrite !merge_sort_Permutation.
Qed.

(** ** The files that are listed *)

Lemma elem_of_all_files dir path :
  path ∈ all_files dir ↔
  is_Some (dir !! path) ∧ endswith path "TopicLookup.json".
Proof.
  unfold all_files. rewrite merge_sort_Permutation, list_elem_of_filter.
  rewrite elem_of_elements, elem_of_dom. naive_solver.
Qed.

Lemma elem_of_other_files dir path :
  path ∈ other_files dir ↔
  is_Some (dir !! path) ∧ endswith path "TopicLookup.json" ∧
  path ≠ PHYSICS_FILENAME ∧ ¬ startswith path "NEW_".
Proof.
  unfold other_files. rewrite list_elem_of_filter, elem_of_all_files.
  naive_solver.
Qed.

Lemma physics_in_all_files dir :
  is_Some (dir !! PHYSICS_FILENAME) → PHYSICS_FILENAME ∈ all_files dir.
Proof. intros H. apply elem_of_all_files. split; [done|]. by vm_compute. Qed.

Lemma other_files_sorted dir :
  other_files dir =
  merge_sort path_le
    (filter (λ name, name ≠ PHYSICS_FILENAME ∧ ¬ startswith name "NEW_")
       (filter (λ name, endswith name "TopicLookup.json")
          (elements (dom dir)))).
Proof. unfold other_files, all_files. apply filter_sorted_paths. Qed.

(** Two directories with the same other files by name list them in the
    same order. *)
Lemma other_files_ext dir1 dir2 :
  (∀ path, path ∈ other_files dir1 ↔ path ∈ other_files dir2) →
  other_files dir1 = other_files dir2.
Proof.
  intros Hext. rewrite !other_files_sorted. apply sorted_paths_eq.
  apply NoDup_Permutation.
  - do 2 apply NoDup_filter. apply NoDup_elements.
  - do 2 apply NoDup_filter. apply NoDup_elements.
  - intros path. specialize (Hext path).
    by rewrite !other_files_sorted, !merge_sort_Permutation in Hext.
Qed.

Lemma other_files_insert_physics dir f :
  other_files (<[PHYSICS_FILENAME := f]> dir) = other_files dir.
Proof.
  apply other_files_ext. intros path. rewrite !elem_of_other_files.
  destruct (decide (path = PHYSICS_FILENAME)) as [->|Hne]; [naive_solver|].
  by rewrite lookup_insert_ne.
Qed.

Lemma other_files_delete dir path :
  other_files (delete path dir) = filter (λ p, p ≠ path) (other_files dir).
Proof.
  rewrite (other_files_sorted dir), filter_sorted_paths.
  rewrite other_files_sorted. apply sorted_paths_eq, NoDup_Permutation.
  - do 2 apply NoDup_filter. apply NoDup_elements.
  - do 3 apply NoDup_filter. apply NoDup_elements.
  - intros p. rewrite !list_elem_of_filter, !elem_of_elements, !elem_of_dom.
    destruct (decide (p = path)) as [->|Hne].
    + rewrite lookup_delete_eq. split; [|naive_solver].
      intros (_ & _ & []%is_Some_None).
    + rewrite lookup_delete_ne by done. naive_solver.
Qed.

(** ** Steps 2 to 4 on a directory *)

Lemma aggregate_run dir :
  match aggregate dir with
  | (out, Ok st) =>
      forallb collect_ok (loaded dir (other_files dir)) = true ∧
      out = WarnSkipping <$> skipped dir (other_files dir) ∧
      st = Collected (signatures (other_entries dir))
             (length (filter (λ e, countable e) (other_entries dir)))
  | (_, Raise _) => forallb collect_ok (loaded dir (other_files dir)) = false
  end.
Proof.
  unfold aggregate.
  pose proof (collect_files_run dir (other_files dir) (Collected ∅ 0)) as Hrun.
  destruct (collect_files _ _ _) as [out [st|e]]; [|done].
  destruct Hrun as (-> & -> & ->). split; [done|]. split; [done|].
  unfold collected_from, other_entries; simpl. f_equal. set_solver.
Qed.

Lemma filter_physics_run seen dir :
  match load_json dir PHYSICS_FILENAME, filter_physics seen dir with
  | Raise e, r => r = Raise e
  | Ok data, Ok r =>
      physics_ok data = true ∧
      r = (length (units_of data), filtered_units seen (units_of data),
           Tally (length (units_of data ≫= λ unit, children unit "topics"))
                 (length (entries (units_of data)))
                 (length (filter (duplicate_entry seen)
                                 (entries (units_of data)))))
  | Ok data, Raise _ => physics_ok data = false
  end.
Proof.
  unfold filter_physics, physics_ok, units_of.
  destruct (load_json dir PHYSICS_FILENAME) as [data|e]; [|done]. simpl.
  destruct (is_dict data) eqn:Hd; simpl;
    [rewrite !py_get_dict by done|by rewrite !py_get_not_dict by done].
  simpl.
  destruct (is_dict (get_or data "lookupData" (JObj []))) eqn:Hl; simpl;
    [rewrite !py_get_dict by done|by rewrite !py_get_not_dict by done].
  simpl.
  destruct (iterable (get_or (get_or data "lookupData" (JObj [])) "units"
                             (JArr []))) eqn:Hi; simpl;
    [|by destruct (not_iterable _ Hi) as [_ ->]].
  rewrite py_len_iterable, py_iter_iterable by done. simpl.
  pose proof (filter_units_run seen
    (children (get_or data "lookupData" (JObj [])) "units") [] (Tally 0 0 0))
    as Hrun.
  destruct (foldM _ _ (children _ "units")) as [[new_units n]|e]; [|done].
  destruct Hrun as [-> Heq]. by injection Heq as -> ->.
Qed.

(** ** The whole run *)

Lemma load_json_Ok dir path data :
  load_json dir path = Ok data ↔ dir !! path = Some (Parsed data).
Proof.
  unfold load_json. destruct (dir !! path) as [[]|]; naive_solver.
Qed.

(** On a Physics file and other files of the right shape the run goes
    through all its steps: it writes the specified filter of the Physics
    units against the signatures of the other files, and returns. *)
Theorem main_returns dir data :
  load_json dir PHYSICS_FILENAME = Ok data →
  physics_ok data = true →
  forallb collect_ok (loaded dir (other_files dir)) = true →
  main dir =
    Run ((([InfoFound (length (all_files dir));
            InfoUsing (length (other_files dir))]
           ++ (InfoName <$> other_files dir))
          ++ (WarnSkipping <$> skipped dir (other_files dir))
          ++ [InfoCollected
                (length (filter (λ e, countable e) (other_entries dir)))
                (size (signatures (other_entries dir)))])
         ++ [SummaryUnits (length (units_of data))
               (length (filtered_units (signatures (other_entries dir))
                                       (units_of data)));
             SummaryTopics
               (length (units_of data ≫= λ unit, children unit "topics"))
               (length (filtered_units (signatures (other_entries dir))
                                       (units_of data)
                        ≫= λ unit, children unit "topics"));
             SummarySkills (length (entries (units_of data)))
               (length (entries
                  (filtered_units (signatures (other_entries dir))
                                  (units_of data))));
             SummaryRemoved
               (length (filter
                  (duplicate_entry (signatures (other_entries dir)))
                  (entries (units_of data))));
             SummaryOutput OUTPUT_FILENAME])
        (Some (new_data (filtered_units (signatures (other_entries dir))
                                        (units_of data))))
        (Ok ()).
Proof.
  intros Hload Hphysics Hothers. unfold main.
  assert (Hsome : is_Some (dir !! PHYSICS_FILENAME))
    by (apply load_json_Ok in Hload; by rewrite Hload).
  rewrite (bool_decide_eq_true_2 _ Hsome). simpl.
  assert (Hall : all_files dir ≠ []).
  { intros Hnil. apply physics_in_all_files in Hsome.
    rewrite Hnil in Hsome. by apply elem_of_nil in Hsome. }
  rewrite (bool_decide_eq_true_2 _ Hall). simpl.
  pose proof (aggregate_run dir) as Hagg.
  destruct (aggregate dir) as [out [st|e]]; [|congruence].
  destruct Hagg as (_ & -> & ->). simpl.
  pose proof (filter_physics_run (signatures (other_entries dir)) dir) as Hf.
  rewrite Hload in Hf.
  destruct (filter_physics _ dir) as [[[c new_units] n]|e]; [|congruence].
  destruct Hf as [_ Heq]. injection Heq as -> -> ->.
  assert (Hunits : forallb unit_ok (units_of data) = true).
  { unfold physics_ok in Hphysics. by apply andb_prop in Hphysics as [_ ?]. }
  rewrite count_topics_run, count_skills_run
    by by apply filtered_units_ok.
  done.
Qed.

(** A run that writes a document has gone through all the steps. *)
Theorem main_written dir doc :
  written (main dir) = Some doc →
  ∃ data,
    load_json dir PHYSICS_FILENAME = Ok data ∧
    physics_ok data = true ∧
    forallb collect_ok (loaded dir (other_files dir)) = true ∧
    doc = new_data (filtered_units (signatures (other_entries dir))
                                   (units_of data)).
Proof.
  unfold main.
  destruct (bool_decide (is_Some _)); simpl; [|done].
  destruct (bool_decide (all_files dir ≠ [])); simpl; [|done].
  pose proof (aggregate_run dir) as Hagg.
  destruct (aggregate dir) as [out [st|e]]; [|done].
  destruct Hagg as (Hothers & _ & ->). simpl.
  pose proof (filter_physics_run (signatures (other_entries dir)) dir) as Hf.
  destruct (filter_physics _ dir) as [[[c new_units] n]|e]; [|done].
  destruct (load_json dir PHYSICS_FILENAME) as [data|e]; [|done].
  destruct Hf as [Hphysics Heq]. injection Heq as -> -> ->.
  exists data. repeat split; try done.
  destruct (count_topics _); [destruct (count_skills _)|];
    simpl in *; congruence.
Qed.

(** ** Entries and signatures *)

Lemma units_of_new_data units : units_of (new_data units) = units.
Proof. done. Qed.

Lemma forallb_elem_of {A} (p : A → bool) (l : list A) x :
  forallb p l = true → x ∈ l → p x = true.
Proof.
  intros Hall Hx. apply list_elem_of_In in Hx.
  by apply (proj1 (forallb_forall p l) Hall).
Qed.

Lemma elem_of_entries units e :
  e ∈ entries units ↔
  ∃ unit topic skill,
    unit ∈ units ∧ topic ∈ children unit "topics" ∧
    skill ∈ children topic "skills" ∧
    e = Entry (get_or unit "unitCd" JNull) (get_or topic "topicCd" JNull)
              (get_or skill "skillCd" JNull) skill.
Proof.
  unfold entries, unit_entries, topic_entries.
  setoid_rewrite list_elem_of_bind. setoid_rewrite list_elem_of_bind.
  setoid_rewrite list_elem_of_fmap. naive_solver.
Qed.

Lemma elem_of_other_entries dir e :
  e ∈ other_entries dir ↔
  ∃ path data,
    path ∈ other_files dir ∧ load_json dir path = Ok data ∧
    e ∈ entries (units_of data).
Proof.
  unfold other_entries, loaded. rewrite list_elem_of_bind.
  setoid_rewrite list_elem_of_omap. split.
  - intros (data & He & path & Hpath & Hload). exists path, data.
    destruct (load_json dir path); naive_solver.
  - intros (path & data & Hpath & Hload & He). exists data. split; [done|].
    exists path. by rewrite Hload.
Qed.

Lemma elem_of_signatures es sg :
  sg ∈ signatures es ↔
  ∃ e, e ∈ es ∧ countable e = true ∧ entry_sig e = Ok sg.
Proof.
  unfold signatures. rewrite elem_of_list_to_set, list_elem_of_omap.
  setoid_rewrite list_elem_of_filter. unfold entry_key. split.
  - intros (e & [Hc He] & Hk). exists e. apply Is_true_true in Hc.
    destruct (entry_sig e); naive_solver.
  - intros (e & He & Hc & Hk). exists e. rewrite Hk, Hc. naive_solver.
Qed.

Lemma py_hash_truthy x k : py_hash x = Ok k → truthy x = key_truthy k.
Proof.
  destruct x as [|[]|[|p|p]|[]| | |]; simpl; intros [= <-]; try done;
    unfold number_of_int, number_of_float; by destruct (odd_part _ _).
Qed.

Lemma py_hash_sig_inv u t s sg :
  py_hash_sig u t s = Ok sg →
  py_hash u = Ok sg.1.1 ∧ py_hash t = Ok sg.1.2 ∧ py_hash s = Ok sg.2.
Proof.
  unfold py_hash_sig.
  destruct (py_hash u), (py_hash t), (py_hash s); simpl; try done.
  by intros [= <-].
Qed.

(** Two triples with the same signature are both countable or both not. *)
Lemma entry_sig_countable e1 e2 sg :
  entry_sig e1 = Ok sg → entry_sig e2 = Ok sg → countable e1 = countable e2.
Proof.
  intros (Hu1 & Ht1 & Hs1)%py_hash_sig_inv (Hu2 & Ht2 & Hs2)%py_hash_sig_inv.
  unfold countable.
  rewrite (py_hash_truthy _ _ Hu1), (py_hash_truthy _ _ Ht1).
  rewrite (py_hash_truthy _ _ Hs1), (py_hash_truthy _ _ Hu2).
  by rewrite (py_hash_truthy _ _ Ht2), (py_hash_truthy _ _ Hs2).
Qed.

Lemma collect_ok_entries data e :
  collect_ok data = true → e ∈ entries (units_of data) →
  countable e = true → ∃ sg, entry_sig e = Ok sg.
Proof.
  unfold collect_ok. intros [_ Hunits]%andb_prop.
  intros (unit & topic & skill & Hu & Ht & Hs & ->)%elem_of_entries Hc.
  apply (forallb_elem_of _ _ _ Hunits) in Hu.
  apply andb_prop in Hu as [_ Htopics].
  apply (forallb_elem_of _ _ _ Htopics) in Ht.
  apply andb_prop in Ht as [_ Hskills].
  apply (forallb_elem_of _ _ _ Hskills) in Hs.
  apply andb_prop in Hs as [_ Hh]. unfold countable in Hc; simpl in Hc.
  rewrite Hc in Hh. by apply py_hash_sig_Ok.
Qed.

Lemma physics_ok_entries data e :
  physics_ok data = true → e ∈ entries (units_of data) →
  is_dict (the_skill e) = true ∧
  skillCd e = get_or (the_skill e) "skillCd" JNull ∧
  ∃ sg, entry_sig e = Ok sg.
Proof.
  unfold physics_ok. intros [_ Hunits]%andb_prop.
  intros (unit & topic & skill & Hu & Ht & Hs & ->)%elem_of_entries.
  apply (forallb_elem_of _ _ _ Hunits) in Hu.
  apply andb_prop in Hu as [_ Htopics].
  apply (forallb_elem_of _ _ _ Htopics) in Ht.
  apply andb_prop in Ht as [_ Hskills].
  apply (forallb_elem_of _ _ _ Hskills) in Hs.
  apply andb_prop in Hs as [Hd Hh]. simpl. by apply py_hash_sig_Ok in Hh.
Qed.

(** * The properties of the specification *)

Example main_ex_dir :
  main ex_dir =
    Run [InfoFound 4; InfoUsing 2; InfoName "Biology_TopicLookup.json";
         InfoName "Broken_TopicLookup.json";
         WarnSkipping "Broken_TopicLookup.json"; InfoCollected 3 3;
         SummaryUnits 2 2; SummaryTopics 3 2; SummarySkills 7 4;
         SummaryRemoved 3; SummaryOutput OUTPUT_FILENAME]
        (Some ex_output) (Ok ()).
Proof. by vm_compute. Qed.

(** C1.  Take any run that writes its output document, any entry of a file
    among the other files that was parsed, and suppose its three codes are
    all non-empty.  Then no skill of the output document has the
    signature of that entry: no output entry hashes to the same set
    element, and in particular none has exactly these three codes. *)
Theorem C1_duplicates_do_not_survive dir doc path data e e' :
  written (main dir) = Some doc →
  path ∈ other_files dir →
  load_json dir path = Ok data →
  e ∈ entries (units_of data) →
  countable e = true →
  e' ∈ entries (units_of doc) →
  entry_sig e' ≠ entry_sig e ∧
  (unitCd e', topicCd e', skillCd e') ≠ (unitCd e, topicCd e, skillCd e).
Proof.
  intros (base & _ & _ & Hothers & ->)%main_written Hpath Hload He Hc.
  rewrite units_of_new_data, filtered_units_entries.
  intros [Hkept _]%list_elem_of_filter.
  assert (Hdata : collect_ok data = true).
  { apply (forallb_elem_of _ _ _ Hothers). unfold loaded.
    apply list_elem_of_omap. exists path. by rewrite Hload. }
  destruct (collect_ok_entries _ _ Hdata He Hc) as [sg Hsg].
  assert (Hsig : entry_sig e' ≠ entry_sig e).
  { intros Heq. apply Hkept. unfold duplicate_entry, is_duplicate.
    fold (entry_sig e'). rewrite Heq, Hsg. apply bool_decide_pack.
    apply elem_of_signatures. exists e. split; [|done].
    apply elem_of_other_entries. eauto. }
  split; [done|]. intros [= Hu Ht Hs]. apply Hsig.
  unfold entry_sig. by rewrite Hu, Ht, Hs.
Qed.

Lemma C1_witness :
  entry_sig (Entry (JStr "U1") (JStr "T1") (JStr "S2") (ex_skill "S2"))
  ≠ entry_sig (Entry (JStr "U1") (JStr "T1") (JStr "S1") (ex_skill "S1")) ∧
  (JStr "U1", JStr "T1", JStr "S2") ≠ (JStr "U1", JStr "T1", JStr "S1").
Proof.
  apply (C1_duplicates_do_not_survive ex_dir ex_output
           "Biology_TopicLookup.json" ex_biology
           (Entry (JStr "U1") (JStr "T1") (JStr "S1") (ex_skill "S1"))
           (Entry (JStr "U1") (JStr "T1") (JStr "S2") (ex_skill "S2"))).
  - vm_compute. reflexivity.
  - in_computed_list.
  - vm_compute. reflexivity.
  - in_computed_list.
  - reflexivity.
  - in_computed_list.
Defined.

(** C2.  Take a run that writes its output and a skill of the Physics file
    of which a code is missing or empty (the unit's, the topic's or its
    own).  Step 2 applied to this skill under these codes, as when it
    occurs in another file, leaves the aggregation state as it is; its
    signature is not in the set that the run aggregated; and the skill is
    in the output document, under the same codes. *)
Theorem C2_uncountable_skill_kept dir doc base e :
  written (main dir) = Some doc →
  load_json dir PHYSICS_FILENAME = Ok base →
  e ∈ entries (units_of base) →
  countable e = false →
  (∀ st, collect_skill (unitCd e) (topicCd e) st (the_skill e) = Ok st) ∧
  (∀ out st sg,
     aggregate dir = (out, Ok st) → entry_sig e = Ok sg →
     sg ∉ seen_signatures st) ∧
  e ∈ entries (units_of doc).
Proof.
  intros (base' & Hload' & Hphysics & _ & ->)%main_written Hload He Hc.
  assert (base' = base) as -> by congruence.
  destruct (physics_ok_entries _ _ Hphysics He) as (Hd & Hs & sg0 & Hsg0).
  assert (Hnot : sg0 ∉ signatures (other_entries dir)).
  { intros (e0 & _ & Hc0 & Hsg)%elem_of_signatures.
    rewrite (entry_sig_countable _ _ _ Hsg0 Hsg) in Hc. congruence. }
  split; [|split].
  - intros st.
    pose proof (collect_skill_run (unitCd e) (topicCd e) st (the_skill e))
      as Hrun.
    unfold collect_skill_ok in Hrun. rewrite Hd, <- Hs in Hrun.
    fold (countable e) in Hrun. rewrite Hc in Hrun. simpl in Hrun.
    destruct (collect_skill _ _ st _) as [st'|]; [|done].
    destruct Hrun as [_ ->]. unfold collected_from, signatures.
    rewrite filter_cons_False
      by (unfold countable; simpl; fold (countable e); rewrite Hc;
          by intros []).
    destruct st; simpl. by rewrite union_empty_l_L, Nat.add_0_r.
  - intros out st sg Hagg Hsg. pose proof (aggregate_run dir) as Hrun.
    rewrite Hagg in Hrun. destruct Hrun as (_ & _ & ->). simpl.
    by assert (sg = sg0) as -> by congruence.
  - rewrite units_of_new_data, filtered_units_entries.
    apply list_elem_of_filter. split; [|done].
    unfold duplicate_entry, is_duplicate. fold (entry_sig e). rewrite Hsg0.
    by intros ?%bool_decide_unpack.
Qed.

Lemma C2_witness :
  let e := Entry (JStr "U2") (JStr "T2") JNull ex_uncoded in
  (∀ st, collect_skill (unitCd e) (topicCd e) st (the_skill e) = Ok st) ∧
  (∀ out st sg,
     aggregate ex_dir = (out, Ok st) → entry_sig e = Ok sg →
     sg ∉ seen_signatures st) ∧
  e ∈ entries (units_of ex_output).
Proof.
  apply (C2_uncountable_skill_kept ex_dir ex_output ex_physics).
  - vm_compute. reflexivity.
  - vm_compute. reflexivity.
  - in_computed_list.
  - reflexivity.
Defined.

(** ** With no signature aggregated *)

Lemma is_duplicate_empty u_cd t_cd s_cd : is_duplicate ∅ u_cd t_cd s_cd = false.
Proof.
  unfold is_duplicate. destruct (py_hash_sig u_cd t_cd s_cd); [|done].
  apply bool_decide_eq_false_2. set_solver.
Qed.

Lemma filter_all {A} (P : A → Prop) `{!∀ x, Decision (P x)} (l : list A) :
  (∀ x, P x) → filter P l = l.
Proof.
  intros HP. induction l as [|x l IH]; [done|].
  by rewrite filter_cons_True, IH.
Qed.

Lemma omap_same {A} (f : A → option A) (l : list A) :
  (∀ x, x ∈ l → f x = Some x) → omap f l = l.
Proof.
  induction l as [|x l IH]; intros Hf; simpl; [done|].
  rewrite (Hf x) by left. f_equal. apply IH. intros y Hy. apply Hf. by right.
Qed.

(** Writing back the elements of a field that holds a non-empty sequence
    of dicts changes nothing: such a field holds a list. *)
Lemma set_field_children x k :
  children x k ≠ [] → forallb is_dict (children x k) = true →
  set_field x k (JArr (children x k)) = x.
Proof.
  unfold children, get_or. destruct x as [| | | | | |kvs]; try done. simpl.
  destruct (assoc_get kvs k) as [v|] eqn:Hget; simpl; [|done].
  destruct v as [| | | |s|l|kvs']; simpl; try done.
  - destruct s; simpl; [done|]. by intros _ [=].
  - intros _ _. by rewrite assoc_set_same.
  - destruct kvs' as [|[]]; simpl; [done|]. by intros _ [=].
Qed.

Lemma forallb_weaken {A} (p q : A → bool) (l : list A) :
  (∀ x, p x = true → q x = true) →
  forallb p l = true → forallb q l = true.
Proof.
  intros Hpq. induction l as [|x l IH]; simpl; [done|].
  intros [Hx Hl]%andb_prop. by rewrite (Hpq _ Hx), IH.
Qed.

Lemma filtered_topic_empty u_cd topic :
  topic_ok u_cd topic = true → has_skills topic = true →
  filtered_topic ∅ u_cd topic = Some topic.
Proof.
  unfold topic_ok, has_skills, filtered_topic, filtered_skills.
  intros [_ Hskills]%andb_prop Hhas.
  rewrite filter_all
    by (intros skill; rewrite is_duplicate_empty; by intros []).
  destruct (children topic "skills") as [|skill skills] eqn:Hc; [done|].
  rewrite <- Hc. f_equal. apply set_field_children; [by rewrite Hc|].
  rewrite Hc. revert Hskills. apply forallb_weaken.
  unfold skill_ok. by intros x [? _]%andb_prop.
Qed.

Lemma filtered_unit_empty unit :
  unit_ok unit = true → has_topics unit = true →
  forallb has_skills (children unit "topics") = true →
  filtered_unit ∅ unit = Some unit.
Proof.
  unfold unit_ok, has_topics, filtered_unit, filtered_topics.
  intros [_ Htopics]%andb_prop Hhas Hall.
  rewrite omap_same.
  2: { intros topic Ht. apply filtered_topic_empty.
       - by apply (forallb_elem_of _ _ _ Htopics).
       - by apply (forallb_elem_of _ _ _ Hall). }
  destruct (children unit "topics") as [|topic topics] eqn:Hc; [done|].
  rewrite <- Hc. f_equal. apply set_field_children; [by rewrite Hc|].
  rewrite Hc. revert Htopics. apply forallb_weaken.
  unfold topic_ok. by intros x [[? _]%andb_prop _]%andb_prop.
Qed.

Lemma filtered_units_empty units :
  forallb unit_ok units = true → nothing_empty units = true →
  filtered_units ∅ units = units.
Proof.
  intros Hok Hfull. apply omap_same. intros unit Hu.
  apply (forallb_elem_of _ _ _ Hok) in Hu as Hunit.
  apply (forallb_elem_of _ _ _ Hfull) in Hu as [? ?]%andb_prop.
  by apply filtered_unit_empty.
Qed.

(** C3 as stated fails: alone in its directory, a Physics file whose one
    unit has no topic is written with no unit at all. *)
Lemma C3_counterexample :
  other_files ex_bare = [] ∧
  load_json ex_bare PHYSICS_FILENAME = Ok (ex_doc [ex_bare_unit]) ∧
  units_of (ex_doc [ex_bare_unit]) = [ex_bare_unit] ∧
  written (main ex_bare) = Some (new_data []) ∧
  units_of (new_data []) ≠ units_of (ex_doc [ex_bare_unit]).
Proof. by vm_compute. Qed.

(** C3, amended.  When there is no other file, the run writes its output
    and every unit of the Physics file has a topic and every topic has a
    skill, the units written are the units of the Physics file, the same in
    content and order; the document written holds nothing else. *)
Theorem C3_no_other_files dir doc base :
  other_files dir = [] →
  written (main dir) = Some doc →
  load_json dir PHYSICS_FILENAME = Ok base →
  nothing_empty (units_of base) = true →
  units_of doc = units_of base ∧ doc = new_data (units_of base).
Proof.
  intros Hnone (base' & Hload' & Hphysics & _ & ->)%main_written Hload Hfull.
  assert (base' = base) as -> by congruence.
  unfold other_entries. rewrite Hnone. simpl.
  change (signatures []) with (∅ : gset signature).
  rewrite units_of_new_data, filtered_units_empty; [done| |done].
  unfold physics_ok in Hphysics. by apply andb_prop in Hphysics as [_ ?].
Qed.

Lemma C3_witness :
  written (main ex_alone) = Some (new_data (units_of ex_physics)) ∧
  units_of (new_data (units_of ex_physics)) = units_of ex_physics ∧
  new_data (units_of ex_physics) = new_data (units_of ex_physics).
Proof.
  split; [vm_compute; reflexivity|].
  apply (C3_no_other_files ex_alone (new_data (units_of ex_physics))
           ex_physics).
  - vm_compute. reflexivity.
  - vm_compute. reflexivity.
  - vm_compute. reflexivity.
  - vm_compute. reflexivity.
Defined.

(** C4.  In a run that writes its output, with [seen] the set it
    aggregated: the units written are, in order, the copies of the Physics
    units whose filtered topics are not none, and a unit has a copy iff its
    filtered topics are not none; the topics of a copy are, in order, the
    copies of the unit's topics whose filtered skills are not none, and a
    topic has a copy iff its filtered skills are not none; the skills of a
    copy are the filtered skills.  So every unit written holds a non-empty
    list of topics, each of which holds a non-empty list of skills. *)
Theorem C4_kept_iff_not_emptied dir doc base :
  written (main dir) = Some doc →
  load_json dir PHYSICS_FILENAME = Ok base →
  ∃ out st,
    aggregate dir = (out, Ok st) ∧
    let seen := seen_signatures st in
    units_of doc = omap (filtered_unit seen) (units_of base) ∧
    (∀ unit, is_Some (filtered_unit seen unit) ↔
             filtered_topics seen unit ≠ []) ∧
    (∀ unit unit',
       filtered_unit seen unit = Some unit' →
       children unit' "topics" =
       omap (filtered_topic seen (get_or unit "unitCd" JNull))
            (children unit "topics")) ∧
    (∀ u_cd topic, is_Some (filtered_topic seen u_cd topic) ↔
                   filtered_skills seen u_cd topic ≠ []) ∧
    (∀ u_cd topic topic',
       filtered_topic seen u_cd topic = Some topic' →
       children topic' "skills" = filtered_skills seen u_cd topic) ∧
    Forall (λ unit',
              ∃ topics,
                get_or unit' "topics" JNull = JArr topics ∧ topics ≠ [] ∧
                Forall (λ topic',
                          ∃ skills,
                            get_or topic' "skills" JNull = JArr skills ∧
                            skills ≠ []) topics)
           (units_of doc).
Proof.
  intros (base' & Hload' & Hphysics & Hothers & ->)%main_written Hload.
  assert (base' = base) as -> by congruence.
  pose proof (aggregate_run dir) as Hagg.
  destruct (aggregate dir) as [out [st|e]]; [|congruence].
  destruct Hagg as (_ & _ & ->). eexists out, _. split; [done|]. simpl.
  rewrite units_of_new_data.
  set (seen := signatures (other_entries dir)).
  split; [done|]. split; [|split; [|split; [|split]]].
  - intros unit. unfold filtered_unit.
    destruct (filtered_topics seen unit); split;
      first [done | by intros []%is_Some_None].
  - intros unit unit' (Hd & _ & ->)%filtered_unit_Some.
    by rewrite children_set_field.
  - intros u_cd topic. unfold filtered_topic.
    destruct (filtered_skills seen u_cd topic); split;
      first [done | by intros []%is_Some_None].
  - intros u_cd topic topic' (Hd & _ & ->)%filtered_topic_Some.
    by rewrite children_set_field.
  - apply Forall_forall. intros unit' (unit & _ & Hu)%list_elem_of_omap.
    apply filtered_unit_Some in Hu as (Hd & Hne & ->).
    exists (filtered_topics seen unit).
    rewrite get_or_set_field_eq by done. split; [done|]. split; [done|].
    apply Forall_forall. intros topic' (topic & _ & Ht)%list_elem_of_omap.
    apply filtered_topic_Some in Ht as (Hdt & Hnet & ->).
    exists (filtered_skills seen (get_or unit "unitCd" JNull) topic).
    by rewrite get_or_set_field_eq.
Qed.

Lemma C4_witness :
  ∃ out st,
    aggregate ex_dir = (out, Ok st) ∧
    units_of ex_output =
    omap (filtered_unit (seen_signatures st)) (units_of ex_physics).
Proof.
  destruct (C4_kept_iff_not_emptied ex_dir ex_output ex_physics)
    as (out & st & Hagg & Hunits & _).
  - vm_compute. reflexivity.
  - vm_compute. reflexivity.
  - exists out, st. split; assumption.
Defined.

(** ** Filtering twice *)

Lemma physics_ok_new_data units :
  physics_ok (new_data units) = forallb unit_ok units.
Proof. done. Qed.

Lemma filter_complement_nil {A} (P : A → Prop) `{!∀ x, Decision (P x)}
    (l : list A) :
  filter P (filter (λ x, ¬ P x) l) = [].
Proof.
  induction l as [|x l IH]; [done|]. rewrite (filter_cons (λ x, ¬ P x)).
  destruct (decide (¬ P x)); [|done]. by rewrite filter_cons_False.
Qed.

(** C5.  When step 4 succeeds on the Physics file against a set [seen],
    step 4 on the document that is written, against the same [seen],
    succeeds, removes no skill and returns the same units: no unit, topic
    or skill goes. *)
Theorem C5_filter_idempotent seen dir c new_units n :
  filter_physics seen dir = Ok (c, new_units, n) →
  filter_physics seen
    (<[PHYSICS_FILENAME := Parsed (new_data new_units)]> dir)
  = Ok (length new_units, new_units,
        Tally (length (new_units ≫= λ unit, children unit "topics"))
              (length (entries new_units)) 0).
Proof.
  intros Hfirst. pose proof (filter_physics_run seen dir) as Hrun.
  rewrite Hfirst in Hrun.
  destruct (load_json dir PHYSICS_FILENAME) as [base|e]; [|done].
  destruct Hrun as [Hphysics Heq]. injection Heq as -> -> ->.
  assert (Hunits : forallb unit_ok (units_of base) = true).
  { unfold physics_ok in Hphysics. by apply andb_prop in Hphysics as [_ ?]. }
  pose proof (filter_physics_run seen
    (<[PHYSICS_FILENAME := Parsed (new_data (filtered_units seen
                                               (units_of base)))]> dir))
    as Hsecond.
  unfold load_json at 1 in Hsecond. rewrite lookup_insert_eq in Hsecond.
  rewrite physics_ok_new_data, filtered_units_ok in Hsecond by done.
  destruct (filter_physics seen (<[_ := _]> dir)) as [r|e]; [|done].
  destruct Hsecond as [_ ->].
  rewrite units_of_new_data, filtered_units_fixed.
  rewrite filtered_units_entries.
  by rewrite (filter_complement_nil (λ e, duplicate_entry seen e)).
Qed.

Lemma C5_witness :
  filter_physics (signatures (other_entries ex_dir))
    (<[PHYSICS_FILENAME := Parsed (new_data (units_of ex_output))]> ex_dir)
  = Ok (length (units_of ex_output), units_of ex_output,
        Tally (length (units_of ex_output
                       ≫= λ unit, children unit "topics"))
              (length (entries (units_of ex_output))) 0).
Proof.
  apply (C5_filter_idempotent (signatures (other_entries ex_dir)) ex_dir
           2 (units_of ex_output) (Tally 3 7 3)).
  vm_compute. reflexivity.
Defined.

(** ** What the copies keep *)

Lemma assoc_set_frame kvs k v :
  is_Some (assoc_get kvs k) →
  Forall2 (λ kv kv', kv.1 = kv'.1 ∧ (kv.1 ≠ k → kv.2 = kv'.2))
          kvs (assoc_set kvs k v).
Proof.
  induction kvs as [|[k' v'] kvs IH]; simpl.
  - by intros []%is_Some_None.
  - destruct (String.eqb k' k) eqn:E; intros Hsome.
    + apply String.eqb_eq in E as ->. constructor; [by split|].
      apply Forall_Forall2_diag, Forall_forall. by intros.
    + constructor; [by split|]. by apply IH.
Qed.

Lemma children_cons_key kvs k y l :
  children (JObj kvs) k = y :: l → is_Some (assoc_get kvs k).
Proof.
  unfold children, get_or. simpl. by destruct (assoc_get kvs k).
Qed.

Lemma same_but_set_field x k l :
  children x k ≠ [] → same_but k x (set_field x k (JArr l)).
Proof.
  intros Hne. destruct (children x k) as [|y ys] eqn:Hc; [done|].
  pose proof (children_cons_dict _ _ _ _ Hc) as Hd.
  destruct x as [| | | | | |kvs]; try done.
  exists kvs, (assoc_set kvs k (JArr l)). split; [done|]. split; [done|].
  eapply assoc_set_frame, children_cons_key, Hc.
Qed.

Lemma omap_frame {A} (f : A → option A) (R : A → A → Prop) (l : list A) :
  (∀ x y, x ∈ l → f x = Some y → R x y) →
  ∃ kept, sublist kept l ∧ Forall2 R kept (omap f l).
Proof.
  induction l as [|x l IH]; intros Hf; simpl.
  { exists []. by split; constructor. }
  destruct IH as (kept & Hsub & Hall).
  { intros y z Hy. apply Hf. by right. }
  destruct (f x) as [y|] eqn:Hx.
  - exists (x :: kept). split; [by constructor|].
    constructor; [|done]. apply Hf; [by left|done].
  - exists kept. split; [by constructor|done].
Qed.

Section frame.
Context (seen : gset signature).

Lemma filtered_topic_frame u_cd topic topic' :
  filtered_topic seen u_cd topic = Some topic' → topic_frame topic topic'.
Proof.
  intros (Hd & Hne & ->)%filtered_topic_Some. split.
  - apply same_but_set_field. intros Hc. apply Hne.
    unfold filtered_skills. by rewrite Hc.
  - rewrite children_set_field by done. apply sublist_filter.
Qed.

Lemma filtered_unit_frame unit unit' :
  filtered_unit seen unit = Some unit' → unit_frame unit unit'.
Proof.
  intros (Hd & Hne & ->)%filtered_unit_Some. split.
  - apply same_but_set_field. intros Hc. apply Hne.
    unfold filtered_topics. by rewrite Hc.
  - rewrite children_set_field by done. apply omap_frame.
    intros topic topic' _. apply filtered_topic_frame.
Qed.

End frame.

(** C6.  In a run that writes its output, the units written are the
    copies, in order, of some of the Physics units.  A copy has the keys of
    its unit in the same order, with the same values but under [topics];
    its topics are the copies, in order, of some of the unit's topics.  The
    copy of a topic has the keys of the topic in the same order, with the
    same values but under [skills]; its skills are some of the topic's
    skills, unchanged and in their order. *)
Theorem C6_other_fields_and_order_kept dir doc base :
  written (main dir) = Some doc →
  load_json dir PHYSICS_FILENAME = Ok base →
  ∃ kept_units,
    sublist kept_units (units_of base) ∧
    Forall2 unit_frame kept_units (units_of doc).
Proof.
  intros (base' & Hload' & _ & _ & ->)%main_written Hload.
  assert (base' = base) as -> by congruence.
  rewrite units_of_new_data. apply omap_frame.
  intros unit unit' _. apply filtered_unit_frame.
Qed.

Lemma C6_witness :
  ∃ kept_units,
    sublist kept_units (units_of ex_physics) ∧
    Forall2 unit_frame kept_units (units_of ex_output).
Proof.
  apply (C6_other_fields_and_order_kept ex_dir ex_output ex_physics).
  - vm_compute. reflexivity.
  - vm_compute. reflexivity.
Defined.

(** C7.  When the Physics file is not in the directory, or no file of the
    directory matches [*TopicLookup.json], the run prints one error line,
    writes nothing and returns. *)
Theorem C7_config_error dir :
  dir !! PHYSICS_FILENAME = None ∨ all_files dir = [] →
  written (main dir) = None ∧ outcome (main dir) = Ok () ∧
  (console (main dir) = [ErrorPhysicsNotFound] ∨
   console (main dir) = [ErrorNoFiles]).
Proof.
  intros Hconfig. unfold main.
  destruct (bool_decide (is_Some (dir !! PHYSICS_FILENAME))) eqn:Hphysics;
    simpl; [|by auto].
  destruct (bool_decide (all_files dir ≠ [])) eqn:Hall; simpl; [|by auto].
  apply bool_decide_eq_true_1 in Hphysics, Hall.
  destruct Hconfig as [Hnone|Hnil]; [|done].
  rewrite Hnone in Hphysics. by apply is_Some_None in Hphysics.
Qed.

Lemma C7_witness :
  written (main ∅) = None ∧ outcome (main ∅) = Ok () ∧
  (console (main ∅) = [ErrorPhysicsNotFound] ∨
   console (main ∅) = [ErrorNoFiles]).
Proof. apply (C7_config_error ∅). left. reflexivity. Defined.

(** ** The summary *)

Lemma collect_files_lines dir paths st l :
  l ∈ (collect_files dir paths st).1 → ∃ path, l = WarnSkipping path.
Proof.
  revert st. induction paths as [|path paths IH]; intros st; simpl.
  { by intros ?%elem_of_nil. }
  destruct (load_json dir path) as [data|e].
  - destruct (collect_data st data) as [st'|e]; simpl; [apply IH|].
    by intros ?%elem_of_nil.
  - specialize (IH st). destruct (collect_files dir paths st) as [out r].
    simpl in *. intros [->|Hl]%elem_of_cons; eauto.
Qed.

Lemma summary_reached dir r :
  SummaryRemoved r ∈ console (main dir) → ∃ doc, written (main dir) = Some doc.
Proof.
  unfold main.
  destruct (bool_decide (is_Some _)); simpl;
    [|by intros ?%list_elem_of_singleton].
  destruct (bool_decide (all_files dir ≠ [])); simpl;
    [|by intros ?%list_elem_of_singleton].
  pose proof (collect_files_lines dir (other_files dir) (Collected ∅ 0)
                (SummaryRemoved r)) as Hlines.
  fold (aggregate dir) in Hlines.
  destruct (aggregate dir) as [out [st|e]]; simpl in *.
  2: { rewrite !elem_of_cons, elem_of_app, list_elem_of_fmap. naive_solver. }
  destruct (filter_physics _ dir) as [[[c new_units] n]|e]; simpl.
  2: { rewrite !elem_of_cons, !elem_of_app, list_elem_of_fmap,
         list_elem_of_singleton. naive_solver. }
  destruct (count_topics _); [destruct (count_skills _)|]; simpl; eauto.
Qed.

Lemma length_filter_split {A} (P : A → Prop) `{!∀ x, Decision (P x)}
    (l : list A) :
  length l = length (filter (λ x, ¬ P x) l) + length (filter P l).
Proof.
  induction l as [|x l IH]; [done|]. rewrite !filter_cons.
  destruct (decide (P x)), (decide (¬ P x)); simpl; try done; lia.
Qed.

(** C10.  Whenever the summary is printed, the number of removed skills it
    reports is the number of skills before minus the number after, where
    before counts the skills of the Physics file and after those of the
    document written: each skill of the Physics file is removed or written,
    and never both. *)
Theorem C10_removed_is_before_minus_after dir before after removed :
  SummarySkills before after ∈ console (main dir) →
  SummaryRemoved removed ∈ console (main dir) →
  removed = before - after ∧ before = after + removed ∧
  ∃ base doc,
    load_json dir PHYSICS_FILENAME = Ok base ∧
    written (main dir) = Some doc ∧
    before = length (entries (units_of base)) ∧
    after = length (entries (units_of doc)).
Proof.
  intros Hskills Hremoved.
  destruct (summary_reached dir removed Hremoved) as [doc Hdoc].
  apply main_written in Hdoc as Hsteps.
  destruct Hsteps as (base & Hload & Hphysics & Hothers & ->).
  rewrite (main_returns dir base Hload Hphysics Hothers) in Hskills, Hremoved.
  simpl in Hskills, Hremoved.
  rewrite !elem_of_cons, !elem_of_app, !elem_of_cons, !list_elem_of_fmap,
    elem_of_nil in Hskills, Hremoved.
  assert (before = length (entries (units_of base)) ∧
          after = length (entries (filtered_units
                    (signatures (other_entries dir)) (units_of base))))
    as [-> ->] by naive_solver.
  assert (removed = length (filter
            (duplicate_entry (signatures (other_entries dir)))
            (entries (units_of base)))) as -> by naive_solver.
  pose proof (length_filter_split
    (λ e, duplicate_entry (signatures (other_entries dir)) e)
    (entries (units_of base))) as Hsplit.
  cbv beta in Hsplit. rewrite <- filtered_units_entries in Hsplit.
  split; [lia|]. split; [lia|]. eexists base, _.
  rewrite (main_returns dir base Hload Hphysics Hothers). simpl.
  by rewrite units_of_new_data.
Qed.

Lemma C10_witness :
  3 = 7 - 4 ∧ 7 = 4 + 3 ∧
  ∃ base doc,
    load_json ex_dir PHYSICS_FILENAME = Ok base ∧
    written (main ex_dir) = Some doc ∧
    7 = length (entries (units_of base)) ∧
    4 = length (entries (units_of doc)).
Proof.
  apply (C10_removed_is_before_minus_after ex_dir 7 4 3).
  - in_computed_list.
  - in_computed_list.
Defined.

(** ** Changing the directory *)

Lemma collect_files_ext dir dir' paths st :
  (∀ path, path ∈ paths → load_json dir' path = load_json dir path) →
  collect_files dir' paths st = collect_files dir paths st.
Proof.
  revert st. induction paths as [|path paths IH]; intros st Hsame; [done|].
  simpl. rewrite (Hsame path) by left.
  assert (Hrest : ∀ q, q ∈ paths → load_json dir' q = load_json dir q)
    by (intros q Hq; apply Hsame; by right).
  destruct (load_json dir path) as [data|e].
  - destruct (collect_data st data); [by apply IH|done].
  - by rewrite IH.
Qed.

(** A file that does not load leaves the state of the loop as if it were
    not listed. *)
Lemma collect_files_unlisted dir path paths st :
  loads dir path = false →
  (collect_files dir (filter (λ q, q ≠ path) paths) st).2 =
  (collect_files dir paths st).2.
Proof.
  intros Hfails. revert st.
  induction paths as [|q paths IH]; intros st; [done|].
  rewrite filter_cons. destruct (decide (q ≠ path)) as [Hne|Heq]; simpl.
  - destruct (load_json dir q) as [data|e].
    + destruct (collect_data st data); [apply IH|done].
    + specialize (IH st).
      by destruct (collect_files dir (filter _ paths) st),
                  (collect_files dir paths st).
  - apply dec_stable in Heq as ->. unfold loads in Hfails.
    destruct (load_json dir path); [done|]. specialize (IH st).
    by destruct (collect_files dir paths st).
Qed.

(** What is written and how the run ends, from steps 2 to 7. *)
Lemma main_result dir :
  is_Some (dir !! PHYSICS_FILENAME) →
  (written (main dir), outcome (main dir)) =
  match (aggregate dir).2 with
  | Raise e => (None, Raise e)
  | Ok st =>
      match filter_physics (seen_signatures st) dir with
      | Raise e => (None, Raise e)
      | Ok (_, new_units, _) =>
          (Some (new_data new_units),
           match count_topics new_units, count_skills new_units with
           | Ok _, Ok _ => Ok ()
           | Raise e, _ | Ok _, Raise e => Raise e
           end)
      end
  end.
Proof.
  intros Hsome. unfold main.
  rewrite (bool_decide_eq_true_2 _ Hsome). simpl.
  assert (Hall : all_files dir ≠ []).
  { intros Hnil. apply physics_in_all_files in Hsome.
    rewrite Hnil in Hsome. by apply elem_of_nil in Hsome. }
  rewrite (bool_decide_eq_true_2 _ Hall). simpl.
  destruct (aggregate dir) as [out [st|e]]; simpl; [|done].
  destruct (filter_physics _ dir) as [[[c new_units] n]|e]; simpl; [|done].
  by destruct (count_topics _); [destruct (count_skills _)|].
Qed.

Lemma filter_physics_ext seen dir dir' :
  dir' !! PHYSICS_FILENAME = dir !! PHYSICS_FILENAME →
  filter_physics seen dir' = filter_physics seen dir.
Proof. intros Hsame. unfold filter_physics, load_json. by rewrite Hsame. Qed.

Lemma aggregate_insert_physics dir f :
  aggregate (<[PHYSICS_FILENAME := f]> dir) = aggregate dir.
Proof.
  unfold aggregate. rewrite other_files_insert_physics.
  apply collect_files_ext.
  intros path (_ & _ & Hne & _)%elem_of_other_files.
  unfold load_json. by rewrite lookup_insert_ne.
Qed.

Lemma aggregate_delete dir path :
  loads dir path = false →
  (aggregate (delete path dir)).2 = (aggregate dir).2.
Proof.
  intros Hfails. unfold aggregate. rewrite other_files_delete.
  rewrite <- (collect_files_unlisted dir path) by done. f_equal.
  apply collect_files_ext. intros q [Hne _]%list_elem_of_filter.
  unfold load_json. by rewrite lookup_delete_ne.
Qed.

(** C8.  A file among the other files that does not parse is skipped: the
    warning is printed when step 2 completes, and step 2 ends in the same
    state, the run writes the same document and ends in the same way as in
    the directory without that file.  A Physics file that does not parse
    ends the run with an exception, the one [load_json] raised when step 2
    completed, and nothing is written. *)
Theorem C8_parse_failures dir :
  (∀ path e,
     path ∈ other_files dir → load_json dir path = Raise e →
     (aggregate (delete path dir)).2 = (aggregate dir).2 ∧
     written (main (delete path dir)) = written (main dir) ∧
     outcome (main (delete path dir)) = outcome (main dir) ∧
     (∀ out st,
        is_Some (dir !! PHYSICS_FILENAME) → aggregate dir = (out, Ok st) →
        WarnSkipping path ∈ console (main dir))) ∧
  (dir !! PHYSICS_FILENAME = Some Malformed →
     written (main dir) = None ∧
     ∃ e, outcome (main dir) = Raise e ∧
          (∀ out st, aggregate dir = (out, Ok st) → e = LoadError)).
Proof.
  split.
  - intros path e Hpath Hload.
    assert (Hfails : loads dir path = false)
      by (unfold loads; by rewrite Hload).
    pose proof (aggregate_delete dir path Hfails) as Hagg.
    apply elem_of_other_files in Hpath as Hother.
    destruct Hother as (_ & _ & Hne & _).
    assert (Hsame : delete path dir !! PHYSICS_FILENAME
                    = dir !! PHYSICS_FILENAME)
      by by rewrite lookup_delete_ne.
    split; [done|].
    assert (Hboth : (written (main (delete path dir)),
                     outcome (main (delete path dir)))
                    = (written (main dir), outcome (main dir))).
    { destruct (dir !! PHYSICS_FILENAME) as [f|] eqn:Hphysics.
      - rewrite !main_result by (by rewrite ?Hsame, ?Hphysics).
        rewrite Hagg. destruct (aggregate dir).2 as [st|]; [|done].
        by rewrite (filter_physics_ext _ dir (delete path dir))
          by by rewrite Hsame, Hphysics.
      - unfold main. by rewrite Hsame, Hphysics. }
    injection Hboth as -> ->. split; [done|]. split; [done|].
    intros out st Hsome Hout.
    pose proof (aggregate_run dir) as Hrun. rewrite Hout in Hrun.
    destruct Hrun as (_ & -> & _).
    assert (Hwarn : WarnSkipping path
                    ∈ WarnSkipping <$> skipped dir (other_files dir)).
    { apply list_elem_of_fmap_2, list_elem_of_filter. split; [|done].
      rewrite Hfails. by intros []. }
    unfold main. rewrite (bool_decide_eq_true_2 _ Hsome). simpl.
    assert (Hall : all_files dir ≠ []).
    { intros Hnil. apply physics_in_all_files in Hsome.
      rewrite Hnil in Hsome. by apply elem_of_nil in Hsome. }
    rewrite (bool_decide_eq_true_2 _ Hall), Hout. simpl.
    destruct (filter_physics _ dir) as [[[c new_units] n]|?]; simpl.
    + destruct (count_topics _); [destruct (count_skills _)|]; simpl;
        rewrite !elem_of_cons, !elem_of_app; naive_solver.
    + rewrite !elem_of_cons, !elem_of_app. naive_solver.
  - intros Hphysics.
    assert (Hsome : is_Some (dir !! PHYSICS_FILENAME)) by by rewrite Hphysics.
    pose proof (main_result dir Hsome) as Hmain.
    assert (Hfilter : ∀ seen, filter_physics seen dir = Raise LoadError).
    { intros seen. pose proof (filter_physics_run seen dir) as Hrun.
      unfold load_json in Hrun. by rewrite Hphysics in Hrun. }
    destruct (aggregate dir) as [out [st|e]]; simpl in Hmain.
    + rewrite Hfilter in Hmain. injection Hmain as -> ->.
      split; [done|]. exists LoadError. by split.
    + injection Hmain as -> ->. split; [done|]. exists e. by split.
Qed.

Lemma C8_witness :
  ((aggregate (delete "Broken_TopicLookup.json" ex_dir)).2
     = (aggregate ex_dir).2 ∧
   written (main (delete "Broken_TopicLookup.json" ex_dir))
     = written (main ex_dir) ∧
   outcome (main (delete "Broken_TopicLookup.json" ex_dir))
     = outcome (main ex_dir) ∧
   (∀ out st,
      is_Some (ex_dir !! PHYSICS_FILENAME) → aggregate ex_dir = (out, Ok st) →
      WarnSkipping "Broken_TopicLookup.json" ∈ console (main ex_dir))) ∧
  (written (main ex_broken_physics) = None ∧
   ∃ e, outcome (main ex_broken_physics) = Raise e ∧
        (∀ out st, aggregate ex_broken_physics = (out, Ok st) →
                   e = LoadError)).
Proof.
  split.
  - apply (proj1 (C8_parse_failures ex_dir) "Broken_TopicLookup.json"
             LoadError).
    + in_computed_list.
    + vm_compute. reflexivity.
  - apply (proj2 (C8_parse_failures ex_broken_physics)).
    vm_compute. reflexivity.
Defined.

Lemma filter_filter_implied {A} (P Q : A → Prop) `{!∀ x, Decision (P x)}
    `{!∀ x, Decision (Q x)} (l : list A) :
  (∀ x, P x → Q x) → filter P (filter Q l) = filter P l.
Proof.
  intros HPQ. induction l as [|x l IH]; [done|]. rewrite !filter_cons.
  destruct (decide (Q x)) as [HQ|HQ].
  - rewrite filter_cons, IH. by destruct (decide (P x)).
  - rewrite IH. destruct (decide (P x)) as [HP|]; [|done].
    exfalso. auto.
Qed.

(** C9.  The Physics file is not among the files step 2 reads, and step 2
    prints and aggregates the same whatever the Physics file holds.  So in
    a run that writes its output, every skill of the Physics file whose
    signature was not aggregated from the other files is written, as many
    times as it occurs: the entries of the output with that signature are
    those of the Physics file, all of them, in order. *)
Theorem C9_no_deduplication_within_physics dir :
  (PHYSICS_FILENAME ∉ other_files dir) ∧
  (∀ f, aggregate (<[PHYSICS_FILENAME := f]> dir) = aggregate dir) ∧
  (∀ doc base out st sg,
     written (main dir) = Some doc →
     load_json dir PHYSICS_FILENAME = Ok base →
     aggregate dir = (out, Ok st) →
     sg ∉ seen_signatures st →
     filter (λ e, entry_key e = Some sg) (entries (units_of doc)) =
     filter (λ e, entry_key e = Some sg) (entries (units_of base))).
Proof.
  split; [|split].
  - intros (_ & _ & Hne & _)%elem_of_other_files. done.
  - intros f. apply aggregate_insert_physics.
  - intros doc base out st sg Hdoc Hload Hagg Hsg.
    apply main_written in Hdoc as (base' & Hload' & _ & _ & ->).
    assert (base' = base) as -> by congruence.
    pose proof (aggregate_run dir) as Hrun. rewrite Hagg in Hrun.
    destruct Hrun as (_ & _ & ->). simpl in Hsg.
    rewrite units_of_new_data, filtered_units_entries.
    apply filter_filter_implied. intros e He.
    unfold duplicate_entry, is_duplicate. fold (entry_sig e).
    unfold entry_key in He. destruct (entry_sig e) as [sg'|]; [|done].
    injection He as ->. by intros ?%bool_decide_unpack.
Qed.

Lemma C9_witness :
  filter (λ e, entry_key e = Some (KStr "U2", KStr "T2", KStr "S4"))
         (entries (units_of ex_output)) =
  filter (λ e, entry_key e = Some (KStr "U2", KStr "T2", KStr "S4"))
         (entries (units_of ex_physics)).
Proof.
  apply (proj2 (proj2 (C9_no_deduplication_within_physics ex_dir))
           ex_output ex_physics
           [WarnSkipping "Broken_TopicLookup.json"]
           (Collected (signatures (other_entries ex_dir)) 3)).
  - vm_compute. reflexivity.
  - vm_compute. reflexivity.
  - vm_compute. reflexivity.
  - apply (bool_decide_unpack _). vm_compute. exact I.
Defined.

Example C9_two_kept :
  filter (λ e, entry_key e = Some (KStr "U2", KStr "T2", KStr "S4"))
         (entries (units_of ex_output)) =
  [Entry (JStr "U2") (JStr "T2") (JStr "S4") (ex_skill "S4");
   Entry (JStr "U2") (JStr "T2") (JStr "S4") (ex_skill "S4")].
Proof. by vm_compute. Qed.

(** ** The examples of the specification, and codes that are no strings *)

Example main_one_duplicate :
  written (main ex_one_duplicate)
  = Some (new_data [ex_unit "U1" [ex_topic "T1" [ex_skill "S2"]]]) ∧
  SummaryRemoved 1 ∈ console (main ex_one_duplicate).
Proof. split; [by vm_compute|in_computed_list]. Qed.

Example main_all_duplicates :
  written (main ex_all_duplicates)
  = Some (new_data [ex_unit "U2" [ex_topic "T2" [ex_skill "S2"]]]).
Proof. by vm_compute. Qed.

(** [True == 1 == 1.0]: the skills coded [1] and [1.0] go, [2] stays. *)
Example main_numeric :
  written (main ex_numeric)
  = Some (new_data
      [JObj [("unitCd", JStr "U1");
             ("topics", JArr [JObj [("topicCd", JStr "T1");
                ("skills", JArr [JObj [("skillCd", JInt 2)]])]])]]).
Proof. by vm_compute. Qed.

(** A list as a code cannot be hashed: line 104 raises and nothing is
    written. *)
Example main_unhashable :
  written (main ex_unhashable) = None ∧
  outcome (main ex_unhashable) = Raise TypeError.
Proof. by vm_compute. Qed.

(** * Further properties of the run *)

(** ** When the run writes *)



(** X2.  When the Physics file is there and parses, but it or one of the
    other files that parse has the wrong shape, an exception ends the run
    and nothing is written. *)
Theorem X2_wrong_shape_raises dir base :
  load_json dir PHYSICS_FILENAME = Ok base →
  physics_ok base = false ∨
  forallb collect_ok (loaded dir (other_files dir)) = false →
  written (main dir) = None ∧ ∃ e, outcome (main dir) = Raise e.
Proof.
  intros Hload Hshape.
  assert (Hsome : is_Some (dir !! PHYSICS_FILENAME))
    by (apply load_json_Ok in Hload; by rewrite Hload).
  pose proof (main_result dir Hsome) as Hmain.
  pose proof (aggregate_run dir) as Hagg.
  destruct (aggregate dir) as [out [st|e]]; simpl in Hmain.
  - destruct Hagg as (Hothers & _ & _).
    pose proof (filter_physics_run (seen_signatures st) dir) as Hrun.
    rewrite Hload in Hrun.
    destruct (filter_physics _ dir) as [r|e].
    + destruct Hrun as [Hphysics _]. destruct Hshape; congruence.
    + injection Hmain as -> ->. eauto.
  - injection Hmain as -> ->. eauto.
Qed.

Lemma X2_witness :
  written (main ex_unhashable) = None ∧
  ∃ e, outcome (main ex_unhashable) = Raise e.
Proof.
  apply (X2_wrong_shape_raises ex_unhashable (ex_coded (JArr []))).
  - vm_compute. reflexivity.
  - left. vm_compute. reflexivity.
Defined.



(** ** Files the run does not read *)

Lemma all_files_ext dir1 dir2 :
  (∀ path, path ∈ all_files dir1 ↔ path ∈ all_files dir2) →
  all_files dir1 = all_files dir2.
Proof.
  intros Hext. unfold all_files in *. apply sorted_paths_eq.
  apply NoDup_Permutation.
  - apply NoDup_filter, NoDup_elements.
  - apply NoDup_filter, NoDup_elements.
  - intros path. specialize (Hext path).
    by rewrite !merge_sort_Permutation in Hext.
Qed.

Lemma aggregate_ext dir dir' :
  other_files dir' = other_files dir →
  (∀ path, path ∈ other_files dir → dir' !! path = dir !! path) →
  aggregate dir' = aggregate dir.
Proof.
  intros Hfiles Hsame. unfold aggregate. rewrite Hfiles.
  apply collect_files_ext. intros path Hpath. unfold load_json.
  by rewrite Hsame.
Qed.

Lemma main_ext dir dir' :
  dir' !! PHYSICS_FILENAME = dir !! PHYSICS_FILENAME →
  all_files dir' = all_files dir →
  other_files dir' = other_files dir →
  aggregate dir' = aggregate dir →
  main dir' = main dir.
Proof.
  intros Hphysics Hall Hothers Hagg. unfold main.
  rewrite Hphysics, Hall, Hothers, Hagg.
  destruct (aggregate dir) as [out [st|e]]; [|done].
  by rewrite (filter_physics_ext _ dir dir').
Qed.

(** X4.  A directory entry whose name does not end with
    [TopicLookup.json] plays no part: with it or without it, whatever it
    holds, the run prints, writes and ends the same. *)
Theorem X4_unmatched_file_ignored dir name f :
  endswith name "TopicLookup.json" = false →
  main (<[name := f]> dir) = main dir ∧ main (delete name dir) = main dir.
Proof.
  intros Hname.
  assert (Hne : name ≠ PHYSICS_FILENAME) by (intros ->; by vm_compute in Hname).
  assert (Hin : ∀ path, path ∈ all_files dir → path ≠ name).
  { intros path [_ Hpath]%elem_of_all_files ->. by rewrite Hname in Hpath. }
  assert (Hall : all_files (<[name := f]> dir) = all_files dir ∧
                 all_files (delete name dir) = all_files dir).
  { split; apply all_files_ext; intros path; rewrite !elem_of_all_files;
      (destruct (decide (path = name)) as [->|Hpath];
         [rewrite Hname; naive_solver|]).
    - by rewrite lookup_insert_ne.
    - by rewrite lookup_delete_ne. }
  destruct Hall as [Hinsert Hdelete].
  assert (Hother : ∀ path, path ∈ other_files dir → path ≠ name).
  { intros path [_ Hpath]%list_elem_of_filter. by apply Hin. }
  split; apply main_ext; try done.
  - by rewrite lookup_insert_ne.
  - unfold other_files. by rewrite Hinsert.
  - apply aggregate_ext; [unfold other_files; by rewrite Hinsert|].
    intros path Hpath%Hother. by rewrite lookup_insert_ne.
  - by rewrite lookup_delete_ne.
  - unfold other_files. by rewrite Hdelete.
  - apply aggregate_ext; [unfold other_files; by rewrite Hdelete|].
    intros path Hpath%Hother. by rewrite lookup_delete_ne.
Qed.

Lemma X4_witness :
  main (<["notes.txt" := Parsed ex_biology]> ex_dir) = main ex_dir ∧
  main (delete "notes.txt" ex_dir) = main ex_dir.
Proof.
  apply (X4_unmatched_file_ignored ex_dir "notes.txt" (Parsed ex_biology)).
  vm_compute. reflexivity.
Defined.



(** ** What step 2 aggregates *)

Lemma size_list_to_set_le (l : list signature) :
  (size (list_to_set l : gset signature) ≤ length l)%nat.
Proof.
  induction l as [|x l IH]; [done|]. rewrite list_to_set_cons. simpl.
  destruct (decide (x ∈ (list_to_set l : gset signature))) as [Hin|Hout].
  - replace ({[x]} ∪ list_to_set l) with (list_to_set l : gset signature)
      by set_solver. lia.
  - rewrite size_union by set_solver. rewrite size_singleton. lia.
Qed.

Lemma length_omap_le {A B} (f : A → option B) (l : list A) :
  (length (omap f l) ≤ length l)%nat.
Proof.
  induction l as [|x l IH]; [done|].
  change (omap f (x :: l))
    with (match f x with Some y => y :: omap f l | None => omap f l end).
  destruct (f x); simpl; lia.
Qed.

(** X6.  When step 2 completes, the set it has aggregated holds exactly the
    signatures of the entries with three non-empty codes of the other files
    that parsed, each component of such a signature being the key of a
    non-empty value; the entry count is the number of these entries, with
    their repetitions, so it is at least the number of signatures. *)
Theorem X6_aggregated_signatures dir out st :
  aggregate dir = (out, Ok st) →
  (∀ sg,
     sg ∈ seen_signatures st ↔
     ∃ path data e,
       path ∈ other_files dir ∧ load_json dir path = Ok data ∧
       e ∈ entries (units_of data) ∧ countable e = true ∧
       entry_sig e = Ok sg) ∧
  (∀ sg, sg ∈ seen_signatures st →
         key_truthy sg.1.1 && key_truthy sg.1.2 && key_truthy sg.2 = true) ∧
  other_entry_count st
    = length (filter (λ e, countable e) (other_entries dir)) ∧
  (size (seen_signatures st) ≤ other_entry_count st)%nat.
Proof.
  intros Hagg. pose proof (aggregate_run dir) as Hrun. rewrite Hagg in Hrun.
  destruct Hrun as (_ & _ & ->). simpl.
  assert (Hiff : ∀ sg,
    sg ∈ signatures (other_entries dir) ↔
    ∃ path data e,
      path ∈ other_files dir ∧ load_json dir path = Ok data ∧
      e ∈ entries (units_of data) ∧ countable e = true ∧
      entry_sig e = Ok sg).
  { intros sg. rewrite elem_of_signatures.
    setoid_rewrite elem_of_other_entries. naive_solver. }
  split; [done|]. split; [|split; [done|]].
  - intros sg (path & data & e & _ & _ & _ & Hc & Hsg)%Hiff.
    apply py_hash_sig_inv in Hsg as (Hu & Ht & Hs).
    rewrite <- (py_hash_truthy _ _ Hu), <- (py_hash_truthy _ _ Ht).
    by rewrite <- (py_hash_truthy _ _ Hs).
  - unfold signatures. etrans; [apply size_list_to_set_le|].
    apply length_omap_le.
Qed.

Lemma X6_witness :
  (∀ sg,
     sg ∈ signatures (other_entries ex_dir) ↔
     ∃ path data e,
       path ∈ other_files ex_dir ∧ load_json ex_dir path = Ok data ∧
       e ∈ entries (units_of data) ∧ countable e = true ∧
       entry_sig e = Ok sg) ∧
  (∀ sg, sg ∈ signatures (other_entries ex_dir) →
         key_truthy sg.1.1 && key_truthy sg.1.2 && key_truthy sg.2 = true) ∧
  3 = length (filter (λ e, countable e) (other_entries ex_dir)) ∧
  (size (signatures (other_entries ex_dir)) ≤ 3)%nat.
Proof.
  apply (X6_aggregated_signatures ex_dir
           [WarnSkipping "Broken_TopicLookup.json"]
           (Collected (signatures (other_entries ex_dir)) 3)).
  vm_compute. reflexivity.
Defined.

Lemma collect_files_warnings dir paths st l :
  l ∈ (collect_files dir paths st).1 →
  ∃ path, l = WarnSkipping path ∧ path ∈ paths ∧ loads dir path = false.
Proof.
  revert st. induction paths as [|path paths IH]; intros st; simpl.
  { by intros ?%elem_of_nil. }
  unfold loads at 1. destruct (load_json dir path) as [data|e] eqn:Hload.
  - destruct (collect_data st data) as [st'|e]; simpl.
    + intros (q & -> & Hq & Hfails)%IH. exists q.
      split; [done|]. split; [by right|done].
    + by intros ?%elem_of_nil.
  - specialize (IH st). destruct (collect_files dir paths st) as [out r].
    simpl in *. intros [->|Hl]%elem_of_cons.
    + exists path. split; [done|]. split; [by left|].
      unfold loads. by rewrite Hload.
    + destruct (IH Hl) as (q & -> & Hq & Hfails). exists q.
      split; [done|]. split; [by right|done].
Qed.

(** X7.  A skip warning is only ever printed for a file among the other
    files that [load_json] could not load; the Physics file, the files that
    start with [NEW_] and the files that load never get one. *)
Theorem X7_warnings_only_for_failures dir path :
  WarnSkipping path ∈ console (main dir) →
  path ∈ other_files dir ∧ ∃ e, load_json dir path = Raise e.
Proof.
  assert (Hwarn : WarnSkipping path ∈ (aggregate dir).1 →
                  path ∈ other_files dir ∧ ∃ e, load_json dir path = Raise e).
  { intros (q & [= <-] & Hq & Hfails)%collect_files_warnings.
    split; [done|]. unfold loads in Hfails.
    destruct (load_json dir path); [done|eauto]. }
  unfold main.
  destruct (bool_decide (is_Some _)); simpl;
    [|by intros ?%list_elem_of_singleton].
  destruct (bool_decide (all_files dir ≠ [])); simpl;
    [|by intros ?%list_elem_of_singleton].
  destruct (aggregate dir) as [out [st|e]]; simpl in *.
  2: { rewrite !elem_of_cons, elem_of_app, list_elem_of_fmap. naive_solver. }
  destruct (filter_physics _ dir) as [[[c new_units] n]|e]; simpl.
  2: { rewrite !elem_of_cons, !elem_of_app, list_elem_of_fmap,
         list_elem_of_singleton. naive_solver. }
  destruct (count_topics _); [destruct (count_skills _)|]; simpl;
    rewrite !elem_of_cons, !elem_of_app, ?elem_of_cons, list_elem_of_fmap,
      ?list_elem_of_singleton, ?elem_of_nil; naive_solver.
Qed.

Lemma X7_witness :
  "Broken_TopicLookup.json" ∈ other_files ex_dir ∧
  ∃ e, load_json ex_dir "Broken_TopicLookup.json" = Raise e.
Proof.
  apply (X7_warnings_only_for_failures ex_dir "Broken_TopicLookup.json").
  in_computed_list.
Defined.

(** ** What step 4 keeps *)

(** X8.  In a run that writes its output, the skills written are exactly
    the skills of the Physics file whose signature is not in the aggregated
    set, under the same codes and in the same order: a skill is written iff
    it is a skill of the Physics file and its signature was not
    aggregated. *)
Theorem X8_written_iff_not_aggregated dir doc base out st :
  written (main dir) = Some doc →
  load_json dir PHYSICS_FILENAME = Ok base →
  aggregate dir = (out, Ok st) →
  entries (units_of doc) =
    filter (λ e, ¬ duplicate_entry (seen_signatures st) e)
           (entries (units_of base)) ∧
  (∀ e, e ∈ entries (units_of doc) ↔
        e ∈ entries (units_of base) ∧
        ∃ sg, entry_sig e = Ok sg ∧ sg ∉ seen_signatures st).
Proof.
  intros (base' & Hload' & Hphysics & _ & ->)%main_written Hload Hagg.
  assert (base' = base) as -> by congruence.
  pose proof (aggregate_run dir) as Hrun. rewrite Hagg in Hrun.
  destruct Hrun as (_ & _ & ->). simpl.
  rewrite units_of_new_data, filtered_units_entries. split; [done|].
  intros e. rewrite list_elem_of_filter. split.
  - intros [Hkeep He]. split; [done|].
    destruct (physics_ok_entries _ _ Hphysics He) as (_ & _ & sg & Hsg).
    exists sg. split; [done|]. intros Hin. apply Hkeep.
    unfold duplicate_entry, is_duplicate. fold (entry_sig e). rewrite Hsg.
    by apply bool_decide_pack.
  - intros (He & sg & Hsg & Hout). split; [|done].
    unfold duplicate_entry, is_duplicate. fold (entry_sig e). rewrite Hsg.
    by intros ?%bool_decide_unpack.
Qed.

Lemma X8_witness :
  entries (units_of ex_output) =
    filter (λ e, ¬ duplicate_entry (signatures (other_entries ex_dir)) e)
           (entries (units_of ex_physics)) ∧
  (∀ e, e ∈ entries (units_of ex_output) ↔
        e ∈ entries (units_of ex_physics) ∧
        ∃ sg, entry_sig e = Ok sg ∧ sg ∉ signatures (other_entries ex_dir)).
Proof.
  apply (X8_written_iff_not_aggregated ex_dir ex_output ex_physics
           [WarnSkipping "Broken_TopicLookup.json"]
           (Collected (signatures (other_entries ex_dir)) 3)).
  - vm_compute. reflexivity.
  - vm_compute. reflexivity.
  - vm_compute. reflexivity.
Defined.

Lemma filtered_units_entries_nil seen units :
  entries (filtered_units seen units) = [] → filtered_units seen units = [].
Proof.
  destruct (filtered_units seen units) as [|unit' rest] eqn:Hkept; [done|].
  assert (Hin : unit' ∈ filtered_units seen units) by (rewrite Hkept; left).
  apply list_elem_of_omap in Hin as (unit & _ & Hunit).
  apply filtered_unit_Some in Hunit as (Hd & Hne & ->).
  destruct (filtered_topics seen unit) as [|topic' topics] eqn:Htopics;
    [done|].
  assert (Hin : topic' ∈ filtered_topics seen unit)
    by (rewrite Htopics; left).
  apply list_elem_of_omap in Hin as (topic & _ & Htopic).
  apply filtered_topic_Some in Htopic as (Hdt & Hnet & ->).
  unfold entries. rewrite bind_cons. unfold unit_entries at 1.
  rewrite children_set_field by done. rewrite bind_cons.
  unfold topic_entries at 1. rewrite children_set_field by done.
  destruct (filtered_skills seen _ topic); [done|]. by rewrite fmap_cons.
Qed.

(** X9.  In a run that writes its output, the document written has no
    unit at all iff every skill of the Physics file has its signature in
    the aggregated set: units and topics go when, and only when, all their
    skills go. *)
Theorem X9_nothing_left_iff_all_aggregated dir doc base out st :
  written (main dir) = Some doc →
  load_json dir PHYSICS_FILENAME = Ok base →
  aggregate dir = (out, Ok st) →
  units_of doc = [] ↔
  ∀ e, e ∈ entries (units_of base) →
       ∃ sg, entry_sig e = Ok sg ∧ sg ∈ seen_signatures st.
Proof.
  intros (base' & Hload' & Hphysics & _ & ->)%main_written Hload Hagg.
  assert (base' = base) as -> by congruence.
  pose proof (aggregate_run dir) as Hrun. rewrite Hagg in Hrun.
  destruct Hrun as (_ & _ & ->). simpl. rewrite units_of_new_data.
  set (seen := signatures (other_entries dir)).
  assert (Hdup : ∀ e sg, entry_sig e = Ok sg →
                 (duplicate_entry seen e ↔ sg ∈ seen)).
  { intros e sg Hsg. unfold duplicate_entry, is_duplicate.
    fold (entry_sig e). rewrite Hsg. apply bool_decide_spec. }
  split.
  - intros Hnil e He.
    destruct (physics_ok_entries _ _ Hphysics He) as (_ & _ & sg & Hsg).
    exists sg. split; [done|]. apply (Hdup e sg Hsg).
    destruct (decide (duplicate_entry seen e)) as [|Hkeep]; [done|].
    assert (Hin : e ∈ entries (filtered_units seen (units_of base))).
    { rewrite filtered_units_entries. by apply list_elem_of_filter. }
    rewrite Hnil in Hin. by apply elem_of_nil in Hin.
  - intros Hall. apply filtered_units_entries_nil.
    rewrite filtered_units_entries.
    destruct (filter _ (entries (units_of base))) as [|e es] eqn:Hkept;
      [done|].
    assert (Hin : e ∈ filter (λ e, ¬ duplicate_entry seen e)
                             (entries (units_of base)))
      by (rewrite Hkept; left).
    apply list_elem_of_filter in Hin as [Hkeep He].
    destruct (Hall e He) as (sg & Hsg & Hin). destruct Hkeep.
    by apply (Hdup e sg Hsg).
Qed.

Lemma X9_witness :
  units_of ex_output = [] ↔
  ∀ e, e ∈ entries (units_of ex_physics) →
       ∃ sg, entry_sig e = Ok sg ∧ sg ∈ signatures (other_entries ex_dir).
Proof.
  apply (X9_nothing_left_iff_all_aggregated ex_dir ex_output ex_physics
           [WarnSkipping "Broken_TopicLookup.json"]
           (Collected (signatures (other_entries ex_dir)) 3)).
  - vm_compute. reflexivity.
  - vm_compute. reflexivity.
  - vm_compute. reflexivity.
Defined.

(** ** The counts of the summary *)

Lemma filtered_units_topics_le seen units :
  (length (filtered_units seen units ≫= λ unit, children unit "topics")
   ≤ length (units ≫= λ unit, children unit "topics"))%nat.
Proof.
  unfold filtered_units. induction units as [|unit units IH]; [done|].
  rewrite bind_cons, length_app.
  change (omap (filtered_unit seen) (unit :: units))
    with (match filtered_unit seen unit with
          | Some unit' => unit' :: omap (filtered_unit seen) units
          | None => omap (filtered_unit seen) units
          end).
  destruct (filtered_unit seen unit) as [unit'|] eqn:Hunit; [|lia].
  apply filtered_unit_Some in Hunit as (Hd & _ & ->).
  rewrite bind_cons, length_app, children_set_field by done.
  pose proof (length_omap_le
    (filtered_topic seen (get_or unit "unitCd" JNull))
    (children unit "topics")) as Hle.
  fold (filtered_topics seen unit) in Hle. lia.
Qed.

(** X10.  When step 4 succeeds, the counts of step 7 succeed on the units
    it returns, and none of the three counts has grown: at most as many
    units, topics and skills after as before, the skills after and the
    removed skills adding up to the skills before. *)
Theorem X10_counts_never_grow seen dir before new_units n :
  filter_physics seen dir = Ok (before, new_units, n) →
  ∃ topics_after skills_after,
    count_topics new_units = Ok topics_after ∧
    count_skills new_units = Ok skills_after ∧
    (length new_units ≤ before)%nat ∧
    (topics_after ≤ original_topics_count n)%nat ∧
    skills_after + removed_skills n = original_skills_count n.
Proof.
  intros Hfilter. pose proof (filter_physics_run seen dir) as Hrun.
  rewrite Hfilter in Hrun.
  destruct (load_json dir PHYSICS_FILENAME) as [base|e]; [|done].
  destruct Hrun as [Hphysics Heq]. injection Heq as -> -> ->.
  assert (Hunits : forallb unit_ok (units_of base) = true).
  { unfold physics_ok in Hphysics. by apply andb_prop in Hphysics as [_ ?]. }
  eexists _, _.
  rewrite count_topics_run, count_skills_run by by apply filtered_units_ok.
  split; [done|]. split; [done|]. simpl. split; [apply length_omap_le|].
  split; [apply filtered_units_topics_le|].
  rewrite filtered_units_entries.
  pose proof (length_filter_split (λ e, duplicate_entry seen e)
                (entries (units_of base))) as Hsplit.
  cbv beta in Hsplit. lia.
Qed.

Lemma X10_witness :
  ∃ topics_after skills_after,
    count_topics (units_of ex_output) = Ok topics_after ∧
    count_skills (units_of ex_output) = Ok skills_after ∧
    (length (units_of ex_output) ≤ 2)%nat ∧
    (topics_after ≤ 3)%nat ∧
    skills_after + 3 = 7.
Proof.
  apply (X10_counts_never_grow (signatures (other_entries ex_dir)) ex_dir
           2 (units_of ex_output) (Tally 3 7 3)).
  vm_compute. reflexivity.
Defined.

(** ** The files step 2 reads *)

(** X11.  The other files are the names of the directory that end with
    [TopicLookup.json], are not the Physics file and do not start with
    [NEW_]: each once, in increasing order.  When the Physics file is
    there, they are fewer than the files found. *)
Theorem X11_other_files_listing dir :
  NoDup (other_files dir) ∧
  StronglySorted path_le (other_files dir) ∧
  (∀ path,
     path ∈ other_files dir ↔
     is_Some (dir !! path) ∧ endswith path "TopicLookup.json" ∧
     path ≠ PHYSICS_FILENAME ∧ ¬ startswith path "NEW_") ∧
  (is_Some (dir !! PHYSICS_FILENAME) →
   (length (other_files dir) < length (all_files dir))%nat).
Proof.
  split; [|split; [|split]].
  - rewrite other_files_sorted, merge_sort_Permutation.
    do 2 apply NoDup_filter. apply NoDup_elements.
  - rewrite other_files_sorted.
    apply StronglySorted_merge_sort; apply _.
  - apply elem_of_other_files.
  - intros Hphysics%physics_in_all_files. unfold other_files.
    apply (length_filter_lt _ _ PHYSICS_FILENAME); [done|]. by intros [? _].
Qed.

(** ** The other files as a whole *)


Lemma signatures_subseteq es1 es2 :
  (∀ e, e ∈ es1 → e ∈ es2) → signatures es1 ⊆ signatures es2.
Proof.
  intros Hsub sg (e & He & Hc & Hsg)%elem_of_signatures.
  apply elem_of_signatures. exists e. auto.
Qed.

Lemma is_duplicate_mono (seen seen' : gset signature) u_cd t_cd s_cd :
  seen ⊆ seen' →
  is_duplicate seen u_cd t_cd s_cd → is_duplicate seen' u_cd t_cd s_cd.
Proof.
  intros Hsub. unfold is_duplicate.
  destruct (py_hash_sig u_cd t_cd s_cd); [|done].
  intros Hin%bool_decide_unpack. apply bool_decide_pack. by apply Hsub.
Qed.



(** X13.  One more file in the directory never brings a skill back: when
    the run writes its output with and without a file, each skill written
    with the file is written without it, in the same order. *)
Theorem X13_more_files_write_less dir name f doc doc' :
  dir !! name = None →
  written (main dir) = Some doc →
  written (main (<[name := f]> dir)) = Some doc' →
  sublist (entries (units_of doc')) (entries (units_of doc)).
Proof.
  intros Hfresh (base & Hload & _ & _ & ->)%main_written.
  intros (base' & Hload' & _ & _ & ->)%main_written.
  assert (Hne : name ≠ PHYSICS_FILENAME).
  { intros ->. unfold load_json in Hload. by rewrite Hfresh in Hload. }
  unfold load_json in Hload'. rewrite lookup_insert_ne in Hload' by done.
  fold (load_json dir PHYSICS_FILENAME) in Hload'.
  assert (base' = base) as -> by congruence.
  rewrite !units_of_new_data, !filtered_units_entries.
  assert (Hsub : signatures (other_entries dir)
                 ⊆ signatures (other_entries (<[name := f]> dir))).
  { apply signatures_subseteq. intros e.
    rewrite !elem_of_other_entries.
    intros (path & data & Hpath & Hdata & He). exists path, data.
    assert (path ≠ name).
    { intros ->. unfold load_json in Hdata. by rewrite Hfresh in Hdata. }
    split; [|split; [|done]].
    - apply elem_of_other_files. apply elem_of_other_files in Hpath.
      by rewrite lookup_insert_ne.
    - unfold load_json. by rewrite lookup_insert_ne. }
  rewrite <- (filter_filter_implied
    (λ e, ¬ duplicate_entry (signatures (other_entries (<[name := f]> dir))) e)
    (λ e, ¬ duplicate_entry (signatures (other_entries dir)) e)).
  - apply sublist_filter.
  - intros e Hkeep Hdup. apply Hkeep. revert Hdup.
    by apply is_duplicate_mono.
Qed.

Lemma X13_witness :
  sublist
    (entries (units_of (new_data
       [ex_unit "U2" [ex_topic "T2" [ex_uncoded; ex_skill "S4";
                                     ex_skill "S4"]]])))
    (entries (units_of ex_output)).
Proof.
  apply (X13_more_files_write_less ex_dir "Chemistry_TopicLookup.json"
           (Parsed ex_chemistry)).
  - vm_compute. reflexivity.
  - vm_compute. reflexivity.
  - vm_compute. reflexivity.
Defined.

(** ** Missing keys *)

Lemma keyless_units_of kvs :
  assoc_get kvs "lookupData" = None ∨
  (∃ kvs', assoc_get kvs "lookupData" = Some (JObj kvs') ∧
           assoc_get kvs' "units" = None) →
  units_of (JObj kvs) = [] ∧ physics_ok (JObj kvs) = true ∧
  collect_ok (JObj kvs) = true.
Proof.
  unfold physics_ok, collect_ok, units_of, children, get_or. simpl.
  intros [->|(kvs' & -> & Hunits)]; simpl; [done|]. by rewrite Hunits.
Qed.



Lemma collect_files_neutral dir path data paths st :
  load_json dir path = Ok data →
  (∀ st, collect_data st data = Ok st) →
  (collect_files dir (filter (λ q, q ≠ path) paths) st).2 =
  (collect_files dir paths st).2.
Proof.
  intros Hload Hneutral. revert st.
  induction paths as [|q paths IH]; intros st; [done|].
  rewrite filter_cons. destruct (decide (q ≠ path)) as [Hne|Heq]; simpl.
  - destruct (load_json dir q) as [data'|e].
    + destruct (collect_data st data'); [apply IH|done].
    + specialize (IH st).
      by destruct (collect_files dir (filter _ paths) st),
                  (collect_files dir paths st).
  - apply dec_stable in Heq as ->. by rewrite Hload, Hneutral.
Qed.

(** X15.  Another subject's file that is a dict with no [lookupData], or
    whose [lookupData] is a dict with no [units], is read as a file with no
    unit: step 2 ends in the same state, and the run writes the same
    document and ends the same way, as in the directory without it. *)
Theorem X15_other_file_without_units dir path kvs :
  path ∈ other_files dir →
  load_json dir path = Ok (JObj kvs) →
  assoc_get kvs "lookupData" = None ∨
  (∃ kvs', assoc_get kvs "lookupData" = Some (JObj kvs') ∧
           assoc_get kvs' "units" = None) →
  (aggregate (delete path dir)).2 = (aggregate dir).2 ∧
  written (main (delete path dir)) = written (main dir) ∧
  outcome (main (delete path dir)) = outcome (main dir).
Proof.
  intros Hpath Hload (Hunits & _ & Hok)%keyless_units_of.
  assert (Hneutral : ∀ st, collect_data st (JObj kvs) = Ok st).
  { intros st. pose proof (collect_data_run (JObj kvs) st) as Hrun.
    rewrite Hok, Hunits in Hrun.
    destruct (collect_data st (JObj kvs)) as [st'|]; [|done].
    destruct Hrun as [_ ->]. by rewrite collected_from_nil. }
  assert (Hagg : (aggregate (delete path dir)).2 = (aggregate dir).2).
  { unfold aggregate. rewrite other_files_delete.
    rewrite <- (collect_files_neutral dir path (JObj kvs)) by done. f_equal.
    apply collect_files_ext. intros q [Hne _]%list_elem_of_filter.
    unfold load_json. by rewrite lookup_delete_ne. }
  split; [done|].
  apply elem_of_other_files in Hpath as (_ & _ & Hne & _).
  assert (Hsame : delete path dir !! PHYSICS_FILENAME
                  = dir !! PHYSICS_FILENAME) by by rewrite lookup_delete_ne.
  assert (Hboth : (written (main (delete path dir)),
                   outcome (main (delete path dir)))
                  = (written (main dir), outcome (main dir))).
  { destruct (dir !! PHYSICS_FILENAME) as [f|] eqn:Hphysics.
    - rewrite !main_result by (by rewrite ?Hsame, ?Hphysics).
      rewrite Hagg. destruct (aggregate dir).2 as [st|]; [|done].
      by rewrite (filter_physics_ext _ dir (delete path dir))
        by by rewrite Hsame, Hphysics.
    - unfold main. by rewrite Hsame, Hphysics. }
  by injection Hboth as -> ->.
Qed.

Lemma X15_witness :
  (aggregate (delete "Empty_TopicLookup.json"
                (<["Empty_TopicLookup.json" := Parsed ex_keyless]> ex_dir))).2
  = (aggregate (<["Empty_TopicLookup.json" := Parsed ex_keyless]> ex_dir)).2 ∧
  written (main (delete "Empty_TopicLookup.json"
                   (<["Empty_TopicLookup.json" := Parsed ex_keyless]> ex_dir)))
  = written (main (<["Empty_TopicLookup.json" := Parsed ex_keyless]> ex_dir)) ∧
  outcome (main (delete "Empty_TopicLookup.json"
                   (<["Empty_TopicLookup.json" := Parsed ex_keyless]> ex_dir)))
  = outcome (main (<["Empty_TopicLookup.json" := Parsed ex_keyless]> ex_dir)).
Proof.
  apply (X15_other_file_without_units
           (<["Empty_TopicLookup.json" := Parsed ex_keyless]> ex_dir)
           "Empty_TopicLookup.json" [("version", JInt 1)]).
  - in_computed_list.
  - vm_compute. reflexivity.
  - left. vm_compute. reflexivity.
Defined.

(** ** The run on its own output *)

Lemma loaded_ext dir dir' paths :
  (∀ path, path ∈ paths → load_json dir' path = load_json dir path) →
  loaded dir' paths = loaded dir paths.
Proof.
  unfold loaded. induction paths as [|path paths IH]; intros Hsame; [done|].
  assert (Hrest : ∀ q, q ∈ paths → load_json dir' q = load_json dir q)
    by (intros q Hq; apply Hsame; by right).
  specialize (IH Hrest). simpl. rewrite (Hsame path) by left.
  destruct (load_json dir path); [f_equal|]; exact IH.
Qed.

Lemma loaded_insert_physics dir f :
  loaded (<[PHYSICS_FILENAME := f]> dir)
         (other_files (<[PHYSICS_FILENAME := f]> dir))
  = loaded dir (other_files dir).
Proof.
  rewrite other_files_insert_physics. apply loaded_ext.
  intros path (_ & _ & Hne & _)%elem_of_other_files.
  unfold load_json. by rewrite lookup_insert_ne.
Qed.

(** X16.  Put in the place of the Physics file, the document a run writes
    is written again, as it is, by the next run, which returns without an
    exception: the other files are read as before, and nothing that was
    kept is a duplicate or empty. *)
Theorem X16_run_on_own_output dir doc :
  written (main dir) = Some doc →
  written (main (<[PHYSICS_FILENAME := Parsed doc]> dir)) = Some doc ∧
  outcome (main (<[PHYSICS_FILENAME := Parsed doc]> dir)) = Ok ().
Proof.
  intros (base & Hload & Hphysics & Hothers & ->)%main_written.
  assert (Hunits : forallb unit_ok (units_of base) = true).
  { unfold physics_ok in Hphysics. by apply andb_prop in Hphysics as [_ ?]. }
  set (new_units := filtered_units (signatures (other_entries dir))
                                   (units_of base)).
  rewrite (main_returns _ (new_data new_units)).
  - simpl. unfold other_entries. rewrite loaded_insert_physics.
    fold (other_entries dir). rewrite units_of_new_data.
    unfold new_units. by rewrite filtered_units_fixed.
  - unfold load_json. by rewrite lookup_insert_eq.
  - rewrite physics_ok_new_data. by apply filtered_units_ok.
  - by rewrite loaded_insert_physics.
Qed.

Lemma X16_witness :
  written (main (<[PHYSICS_FILENAME := Parsed ex_output]> ex_dir))
    = Some ex_output ∧
  outcome (main (<[PHYSICS_FILENAME := Parsed ex_output]> ex_dir)) = Ok ().
Proof.
  apply (X16_run_on_own_output ex_dir ex_output).
  vm_compute. reflexivity.
Defined.

(** ** Subjects that share nothing *)

Lemma filter_all_in {A} (P : A → Prop) `{!∀ x, Decision (P x)} (l : list A) :
  (∀ x, x ∈ l → P x) → filter P l = l.
Proof.
  induction l as [|x l IH]; intros HP; [done|].
  rewrite filter_cons_True by (apply HP; left). f_equal.
  apply IH. intros y Hy. apply HP. by right.
Qed.

Lemma filtered_units_unshared seen units :
  forallb unit_ok units = true → nothing_empty units = true →
  (∀ e, e ∈ entries units → ¬ duplicate_entry seen e) →
  filtered_units seen units = units.
Proof.
  intros Hok Hfull Hkeep. apply omap_same. intros unit Hu.
  pose proof (forallb_elem_of _ _ _ Hok Hu) as Hunit.
  pose proof (forallb_elem_of _ _ _ Hfull Hu) as [Htopics Hskills]%andb_prop.
  unfold unit_ok in Hunit. apply andb_prop in Hunit as [_ Hshape].
  unfold filtered_unit, filtered_topics. rewrite omap_same.
  - unfold has_topics in Htopics.
    destruct (children unit "topics") as [|topic topics] eqn:Hc; [done|].
    rewrite <- Hc. f_equal. apply set_field_children; [by rewrite Hc|].
    rewrite Hc. revert Hshape. apply forallb_weaken.
    unfold topic_ok. by intros x [[? _]%andb_prop _]%andb_prop.
  - intros topic Ht.
    pose proof (forallb_elem_of _ _ _ Hshape Ht) as Htopic.
    pose proof (forallb_elem_of _ _ _ Hskills Ht) as Hhas.
    unfold topic_ok in Htopic. apply andb_prop in Htopic as [_ Hshape'].
    unfold filtered_topic, filtered_skills. rewrite filter_all_in.
    + unfold has_skills in Hhas.
      destruct (children topic "skills") as [|skill skills] eqn:Hc; [done|].
      rewrite <- Hc. f_equal. apply set_field_children; [by rewrite Hc|].
      rewrite Hc. revert Hshape'. apply forallb_weaken.
      unfold skill_ok. by intros x [? _]%andb_prop.
    + intros skill Hs.
      apply (Hkeep (Entry (get_or unit "unitCd" JNull)
                          (get_or topic "topicCd" JNull)
                          (get_or skill "skillCd" JNull) skill)).
      apply elem_of_entries. exists unit, topic, skill. by repeat split.
Qed.

(** X17.  In a run that writes its output: when no skill of the Physics
    file has its signature in the aggregated set, and every unit of the
    Physics file has a topic and every topic a skill, the units written are
    the units of the Physics file, unchanged. *)
Theorem X17_nothing_shared_nothing_changed dir doc base out st :
  written (main dir) = Some doc →
  load_json dir PHYSICS_FILENAME = Ok base →
  aggregate dir = (out, Ok st) →
  nothing_empty (units_of base) = true →
  (∀ e sg, e ∈ entries (units_of base) → entry_sig e = Ok sg →
           sg ∉ seen_signatures st) →
  units_of doc = units_of base.
Proof.
  intros (base' & Hload' & Hphysics & _ & ->)%main_written Hload Hagg.
  assert (base' = base) as -> by congruence.
  pose proof (aggregate_run dir) as Hrun. rewrite Hagg in Hrun.
  destruct Hrun as (_ & _ & ->). simpl. intros Hfull Hnone.
  rewrite units_of_new_data. apply filtered_units_unshared; [|done|].
  - unfold physics_ok in Hphysics. by apply andb_prop in Hphysics as [_ ?].
  - intros e He. unfold duplicate_entry, is_duplicate. fold (entry_sig e).
    destruct (entry_sig e) as [sg|] eqn:Hsg; [|by intros []].
    intros Hin%bool_decide_unpack. by apply (Hnone e sg).
Qed.

Lemma X17_witness :
  written (main ex_unshared) = Some (new_data (units_of ex_physics)) ∧
  units_of (new_data (units_of ex_physics)) = units_of ex_physics.
Proof.
  split; [vm_compute; reflexivity|].
  apply (X17_nothing_shared_nothing_changed ex_unshared
           (new_data (units_of ex_physics)) ex_physics []
           (Collected (signatures (other_entries ex_unshared)) 1)).
  - vm_compute. reflexivity.
  - vm_compute. reflexivity.
  - vm_compute. reflexivity.
  - vm_compute. reflexivity.
  - intros e sg He Hsg. apply list_elem_of_In in He. vm_compute in He.
    repeat (destruct He as [<-|He]); try (by destruct He);
      vm_compute in Hsg; injection Hsg as <-;
      apply (bool_decide_unpack _); vm_compute; exact I.
Defined.

(** ** The document written as a document to read *)

Lemma unit_ok_collect_unit_ok unit :
  unit_ok unit = true → collect_unit_ok unit = true.
Proof.
  unfold unit_ok, collect_unit_ok.
  intros [-> Htopics]%andb_prop. simpl. revert Htopics.
  apply forallb_weaken. intros topic. unfold topic_ok, collect_topic_ok.
  intros [-> Hskills]%andb_prop. simpl. revert Hskills.
  apply forallb_weaken. intros skill. unfold skill_ok, collect_skill_ok.
  intros [-> ->]%andb_prop. simpl. apply orb_true_r.
Qed.

(** X18.  The document a run writes has the shape the script asks of its
    own input, as the Physics file and as another subject's file, and in it
    every unit has a topic and every topic has a skill. *)
Theorem X18_output_is_input dir doc :
  written (main dir) = Some doc →
  physics_ok doc = true ∧ collect_ok doc = true ∧
  nothing_empty (units_of doc) = true.
Proof.
  intros (base & _ & Hphysics & _ & ->)%main_written.
  assert (Hunits : forallb unit_ok (units_of base) = true).
  { unfold physics_ok in Hphysics. by apply andb_prop in Hphysics as [_ ?]. }
  set (seen := signatures (other_entries dir)).
  pose proof (filtered_units_ok seen _ Hunits) as Hkept.
  split; [by rewrite physics_ok_new_data|]. split.
  - change (collect_ok (new_data (filtered_units seen (units_of base))))
      with (forallb collect_unit_ok (filtered_units seen (units_of base))).
    revert Hkept. apply forallb_weaken, unit_ok_collect_unit_ok.
  - rewrite units_of_new_data. unfold nothing_empty.
    apply forallb_forall. intros unit' Hin%list_elem_of_In.
    apply list_elem_of_omap in Hin as (unit & _ & Hunit).
    apply filtered_unit_Some in Hunit as (Hd & Hne & ->).
    unfold has_topics. rewrite children_set_field by done.
    assert (Hall : forallb has_skills (filtered_topics seen unit) = true).
    { apply forallb_forall. intros topic' Hin%list_elem_of_In.
      apply list_elem_of_omap in Hin as (topic & _ & Htopic).
      apply filtered_topic_Some in Htopic as (Hdt & Hnet & ->).
      unfold has_skills. rewrite children_set_field by done.
      by destruct (filtered_skills seen _ topic). }
    rewrite Hall. by destruct (filtered_topics seen unit).
Qed.

Lemma X18_witness :
  physics_ok ex_output = true ∧ collect_ok ex_output = true ∧
  nothing_empty (units_of ex_output) = true.
Proof.
  apply (X18_output_is_input ex_dir ex_output). vm_compute. reflexivity.
Defined.
